(** * AutoGen multi-agent research assistant: workflow.py and web_search.py

    A shallow embedding of the orchestration layer of the repository:
    the result extractor, the contribution analyzer, the workflow
    orchestrator with its session store, the report renderer
    (workflow.py) and the fail-soft search provider (web_search.py).

    Conventions.
    - A Python [str] is a [string]; every [ascii] stands for one
      character, so [String.length] is Python's [len].  The character
      tables below (URL characters, white space, line boundaries) are
      Python's, restricted to the characters an [ascii] can hold.
    - A dict read with [.get(key, default)] is a [gmap] from keys to
      values; a dict literal with a fixed set of keys is a record.
    - A mutable list that is shared between objects lives in a heap and
      is referred to by its location.
    - A call into a library that may raise is a value of [Exc]. *)

From stdpp Require Import gmap strings list fin_maps pretty.
From Stdlib Require Import ZArith Lia.
From Stdlib Require Import Ascii.
From Stdlib Require String.

Local Open Scope Z_scope.
Local Open Scope nat_scope.

(** ** Python strings *)

Module PyStr.

(** The newline character. *)
Definition nl : string := String (Ascii.ascii_of_nat 10) "".

(** [s.startswith(p)], returning what follows the prefix. *)
Fixpoint strip_prefix (p s : string) : option string :=
  match p, s with
  | EmptyString, _ => Some s
  | String a p', String b s' =>
      if Ascii.eqb a b then strip_prefix p' s' else None
  | String _ _, EmptyString => None
  end.

(** [needle in hay]. *)
Fixpoint str_in (needle hay : string) : bool :=
  match strip_prefix needle hay with
  | Some _ => true
  | None =>
      match hay with
      | EmptyString => false
      | String _ hay' => str_in needle hay'
      end
  end.

(** [s[:n]]. *)
Fixpoint str_take (n : nat) (s : string) : string :=
  match n, s with
  | S n', String c s' => String c (str_take n' s')
  | _, _ => ""
  end.

(** [sep.join(parts)]. *)
Fixpoint join (sep : string) (parts : list string) : string :=
  match parts with
  | [] => ""
  | [p] => p
  | p :: ps => p +:+ sep +:+ join sep ps
  end.

Definition in_range (lo hi c : Ascii.ascii) : bool :=
  (Ascii.N_of_ascii lo <=? Ascii.N_of_ascii c)%N
  && (Ascii.N_of_ascii c <=? Ascii.N_of_ascii hi)%N.

Definition one_of (cs : string) (c : Ascii.ascii) : bool :=
  existsb (Ascii.eqb c) (String.list_ascii_of_string cs).

End PyStr.

(** ** The URL pattern of the result extractor

    [http[s]?://(?:[a-zA-Z]|[0-9]|[$-_@.&+]|[!*\\(\\),]|(?:%[0-9a-fA-F][0-9a-fA-F]))+]
    as used with [re.findall]: the pattern has no capturing group, so
    every match is reported as the matched text, matches are searched
    from left to right and do not overlap. *)

Module Re.
Import PyStr.

(** The alternatives of the repeated group, in the order of the
    pattern.  In the raw string the class [[!*\\(\\),]] holds the
    characters [!], [*], backslash, [(], [)] and [,]. *)
Definition alt_letter (c : Ascii.ascii) : bool :=
  in_range "a"%char "z"%char c || in_range "A"%char "Z"%char c.
Definition alt_digit (c : Ascii.ascii) : bool :=
  in_range "0"%char "9"%char c.
Definition alt_punct (c : Ascii.ascii) : bool :=
  in_range "$"%char "_"%char c || one_of "@.&+" c.
Definition alt_paren (c : Ascii.ascii) : bool := one_of "!*\(\)," c.
Definition hex_digit (c : Ascii.ascii) : bool :=
  in_range "0"%char "9"%char c || in_range "a"%char "f"%char c
  || in_range "A"%char "F"%char c.

(** The four alternatives that take a single character. *)
Definition url_char (c : ascii) : bool :=
  alt_letter c || alt_digit c || alt_punct c || alt_paren c.

(** One iteration of the group: the first alternative that matches
    wins; the result is what is left of the input. *)
Definition group_iter (s : string) : option string :=
  match s with
  | EmptyString => None
  | String c r =>
      if url_char c
      then Some r
      else
        match s with
        | String "%"%char (String h1 (String h2 r')) =>
            if hex_digit h1 && hex_digit h2 then Some r' else None
        | _ => None
        end
  end.

(** The greedy repetition: iterate while the group matches.  Nothing
    follows the repetition in the pattern, so the first stop is the
    match.  Every iteration consumes a character, so [String.length s]
    iterations are enough. *)
Fixpoint group_star (fuel : nat) (s : string) : string :=
  match fuel with
  | 0 => s
  | S fuel' =>
      match group_iter s with
      | Some r => group_star fuel' r
      | None => s
      end
  end.

(** [://(?:...)+] at the head of [r]: the number of characters matched. *)
Definition tail_match (r : string) : option nat :=
  match strip_prefix "://" r with
  | None => None
  | Some body =>
      let rest := group_star (String.length body) body in
      if String.length rest <? String.length body
      then Some (3 + (String.length body - String.length rest))
      else None
  end.

(** The whole pattern at the head of [s]: the length of the match.
    [[s]?] is greedy: the branch that takes the [s] is tried first. *)
Definition match_here (s : string) : option nat :=
  match strip_prefix "http" s with
  | None => None
  | Some r =>
      let with_s :=
        match r with
        | String "s"%char r1 => tail_match r1
        | _ => None
        end in
      match with_s with
      | Some n => Some (4 + 1 + n)
      | None =>
          match tail_match r with
          | Some n => Some (4 + n)
          | None => None
          end
      end
  end.

(** [re.findall]: [skip] counts the characters of the current match
    that are still to be passed over. *)
Fixpoint findall_from (skip : nat) (s : string) : list string :=
  match s with
  | EmptyString => []
  | String _ s' =>
      match skip with
      | S k => findall_from k s'
      | 0 =>
          match match_here s with
          | Some n => str_take n s :: findall_from (n - 1) s'
          | None => findall_from 0 s'
          end
      end
  end.

Definition findall (s : string) : list string := findall_from 0 s.

End Re.

(** ** Messages and extracted results *)

(** A message of the transcript is a dict; the code reads it with
    [message.get("content", "")] and [message.get("name", ...)]. *)
Abbreviation Message := (gmap string string).

Definition dict_get (d : gmap string string) (key dflt : string) : string :=
  default dflt (d !! key).

(** [{"content": content, "agent": name}] *)
Record Finding := mkFinding { content : string; agent : string }.

Record Results := mkResults {
  findings : list Finding;
  sources : list string;
  synthesis : string;
  critique : string;
  recommendations : list string
}.

Definition empty_results : Results :=
  {| findings := []; sources := []; synthesis := ""; critique := "";
     recommendations := [] |}.

Definition set_findings (r : Results) (v : list Finding) : Results :=
  {| findings := v; sources := sources r; synthesis := synthesis r;
     critique := critique r; recommendations := recommendations r |}.
Definition set_sources (r : Results) (v : list string) : Results :=
  {| findings := findings r; sources := v; synthesis := synthesis r;
     critique := critique r; recommendations := recommendations r |}.
Definition set_synthesis (r : Results) (v : string) : Results :=
  {| findings := findings r; sources := sources r; synthesis := v;
     critique := critique r; recommendations := recommendations r |}.
Definition set_critique (r : Results) (v : string) : Results :=
  {| findings := findings r; sources := sources r; synthesis := synthesis r;
     critique := v; recommendations := recommendations r |}.

(** The URLs one research message contributes:
    [if "http" in content: urls = re.findall(...)]. *)
Definition harvest_urls (c : string) : list string :=
  if PyStr.str_in "http" c then Re.findall c else [].

(** The body of the loop of [_extract_research_results]. *)
Definition extract_step (results : Results) (message : Message) : Results :=
  let c := dict_get message "content" "" in
  let name := dict_get message "name" "" in
  if String.eqb name "research_agent" then
    let results1 :=
      if PyStr.str_in "http" c
      then set_sources results (sources results ++ Re.findall c)
      else results in
    if 50 <? String.length c
    then set_findings results1
           (findings results1 ++ [ {| content := c; agent := name |} ])
    else results1
  else if String.eqb name "synthesis_agent" && (100 <? String.length c)
  then set_synthesis results c
  else if String.eqb name "critique_agent" && (100 <? String.length c)
  then set_critique results c
  else results.

(** [list(set(xs))]: the distinct elements of [xs], in an order Python
    does not specify. *)
Definition list_set (xs : list string) : list string :=
  elements (list_to_set xs : gset string).

Definition _extract_research_results (messages : list Message) : Results :=
  let results := fold_left extract_step messages empty_results in
  set_sources results (list_set (sources results)).

(** [_analyze_agent_contributions] *)
Definition count_step (contributions : gmap string nat) (message : Message)
  : gmap string nat :=
  let agent_name := dict_get message "name" "unknown" in
  <[ agent_name := default 0 (contributions !! agent_name) + 1 ]> contributions.

Definition _analyze_agent_contributions (messages : list Message)
  : gmap string nat :=
  fold_left count_step messages ∅.

(** ** Vocabulary for the statements about the extractor *)

Definition msg_content (m : Message) : string := dict_get m "content" "".
Definition msg_name (m : Message) : string := dict_get m "name" "".

(** A message of the research agent. *)
Definition is_research (m : Message) : bool :=
  String.eqb (msg_name m) "research_agent".

(** A research message that is long enough to be a finding. *)
Definition is_finding (m : Message) : bool :=
  is_research m && (50 <? String.length (msg_content m)).

(** A message of [role] that is longer than the long threshold. *)
Definition long_from (role : string) (m : Message) : bool :=
  String.eqb (msg_name m) role && (100 <? String.length (msg_content m)).

Definition finding_of (m : Message) : Finding :=
  {| content := msg_content m; agent := "research_agent" |}.


(** The transcript of the end-to-end example: a message is the dict
    [{"name": name, "content": text}]. *)
Definition message (name text : string) : Message :=
  <[ "name" := name ]> {[ "content" := text ]}.

Definition example_research : string :=
  "Found at https://example.com/a and https://example.com/a - short".

Definition example_transcript (synthesis_text : string) : list Message :=
  [ message "research_agent" example_research;
    message "synthesis_agent" synthesis_text ].

(** A synthesis text of 120 characters. *)
Definition synthesis_120 : string :=
  "Across the sources reviewed, the evidence points to steady gains in diagnostic accuracy, with costs falling year on year".

(** The speaker a message is counted under. *)
Definition speaker (m : Message) : string := dict_get m "name" "unknown".

(** How many messages of [ms] are counted under [name]. *)
Definition count_speaker (name : string) (ms : list Message) : nat :=
  length (List.filter (fun m => String.eqb (speaker m) name) ms).

(** The sum of the values of a mapping. *)
Definition total (m : gmap string nat) : nat :=
  map_fold (fun _ v acc => v + acc) 0 m.


(** ** Exceptions *)

(** The exceptions the embedding speaks of; all of them are instances
    of Python's [Exception]. *)
Inductive exn :=
  | IndexError
  | Exception (text : string).

(** [str(e)] *)
Definition str (e : exn) : string :=
  match e with
  | IndexError => "list index out of range"
  | Exception text => text
  end.

(** A computation that returns or raises. *)
Inductive Exc (A : Type) :=
  | Raise (e : exn)
  | Return (a : A).
Arguments Raise {A} e.
Arguments Return {A} a.

Definition bind {A B : Type} (c : Exc A) (k : A -> Exc B) : Exc B :=
  match c with
  | Raise e => Raise e
  | Return a => k a
  end.

(** [try: body  except Exception as e: handler(e)] *)
Definition try_except {A : Type} (body : Exc A) (handler : exn -> Exc A)
  : Exc A :=
  match body with
  | Raise e => handler e
  | Return a => Return a
  end.

Notation "x <- c ;; k" := (bind c (fun x => k))
  (at level 100, c at next level, right associativity).

(** [l[index]] for a Python list and a Python integer. *)
Definition getitem {A : Type} (l : list A) (index : Z) : Exc A :=
  let n := Z.of_nat (length l) in
  let i := (if index <? 0 then index + n else index)%Z in
  if ((i <? 0) || (n <=? i))%Z then Raise IndexError
  else
    match l !! Z.to_nat i with
    | Some x => Return x
    | None => Raise IndexError
    end.

(** ** The workflow orchestrator and its session store *)

(** The clock has microsecond resolution: a reading of [datetime.now()]
    is a number of microseconds, and [duration_seconds] is kept as the
    number of microseconds between two readings (Python holds the same
    quantity, divided by 10^6, as a float).  How a reading is printed by
    [isoformat()] and how a duration is printed by the format [.1f] is
    left to the two functions of this class. *)
Class Formatting := {
  isoformat : Z -> string;
  format_1f : Z -> string
}.

(** Locations of list objects. *)
Abbreviation loc := positive.

(** The LLM configuration dict.  The workflow never looks into its
    values, which are kept here as text. *)
Abbreviation LlmConfig := (gmap string string).

(** The success shape of the dict [conduct_research] builds.  The entry
    ["messages"] is the list object [self.group_chat.messages] itself,
    not a copy of it. *)
Record ResearchRecord := mkRecord {
  topic : string;
  timestamp : string;
  duration_seconds : Z;
  messages : loc;
  results : Results;
  agent_contributions : gmap string nat
}.

(** What [conduct_research] returns: the record, or the dict
    [{"error": ..., "topic": ..., "timestamp": ...}]. *)
Inductive ResearchResult :=
  | Completed (record : ResearchRecord)
  | Degraded (error topic timestamp : string).

(** The keys of the returned dict, in the order of the dict display. *)
Definition keys (d : ResearchResult) : list string :=
  match d with
  | Completed _ =>
      ["topic"; "timestamp"; "duration_seconds"; "messages"; "results";
       "agent_contributions"]
  | Degraded _ _ _ => ["error"; "topic"; "timestamp"]
  end.

(** A [ResearchWorkflow] object together with the list objects it
    refers to.  [group_chat_messages] is where [self.group_chat.messages]
    lives, [manager] is the configuration the present
    [GroupChatManager] was built with. *)
Record ResearchWorkflow := mkWorkflow {
  heap : gmap loc (list Message);
  llm_config : LlmConfig;
  manager : LlmConfig;
  group_chat_messages : loc;
  research_history : list ResearchRecord
}.

(** The content of a list object. *)
Definition deref (self : ResearchWorkflow) (l : loc) : list Message :=
  default [] (heap self !! l).

(** [research["messages"]] for a stored record, read in state [self]. *)
Definition record_messages (self : ResearchWorkflow) (research : ResearchRecord)
  : list Message :=
  deref self (messages research).

(** [ResearchWorkflow(llm_config)], on a heap [h]. *)
Definition __init__ (h : gmap loc (list Message))
    (llm_config : LlmConfig) : ResearchWorkflow :=
  let l := fresh (dom h) in
  {| heap := <[ l := [] ]> h;
     llm_config := llm_config;
     manager := delete "proxies" llm_config;
     group_chat_messages := l;
     research_history := [] |}.

(** [reset]: [self.group_chat.messages.clear()] empties the list object
    in place, then the manager is built anew from [self.llm_config]. *)
Definition reset (self : ResearchWorkflow) : ResearchWorkflow :=
  {| heap := <[ group_chat_messages self := [] ]> (heap self);
     llm_config := llm_config self;
     manager := llm_config self;
     group_chat_messages := group_chat_messages self;
     research_history := research_history self |}.

(** The conversation driver, [user_proxy.initiate_chat(manager,
    message=...)]: it is given the initial message and works on the list
    object [group_chat.messages]; it leaves that list with a new content
    and returns or raises. *)
Definition Driver : Type :=
  string -> list Message -> list Message * Exc unit.

Definition initial_message (research_topic additional_instructions : string)
  : string :=
  let nl := PyStr.nl in
  "Please conduct comprehensive research on the following topic:" +:+ nl
  +:+ nl
  +:+ "**Topic**: " +:+ research_topic +:+ nl
  +:+ nl
  +:+ additional_instructions +:+ nl
  +:+ nl
  +:+ "**Research Process**:" +:+ nl
  +:+ "1. The Research Agent should search for relevant information from credible sources" +:+ nl
  +:+ "2. The Synthesis Agent should aggregate and synthesize the findings" +:+ nl
  +:+ "3. The Critique Agent should fact-check and evaluate the quality of the research" +:+ nl
  +:+ "4. Continue the discussion until a comprehensive research deliverable is ready" +:+ nl
  +:+ nl
  +:+ "Please begin the research process.".

Section ConductResearch.
Context `{Formatting}.
Variable initiate_chat : Driver.
(** The two readings of [datetime.now()]. *)
Variables start_time end_time : Z.

(** The statements of the [try] block. *)
Definition conduct_research_try (self : ResearchWorkflow)
    (research_topic additional_instructions : string)
  : ResearchWorkflow * Exc ResearchResult :=
  let initial := initial_message research_topic additional_instructions in
  let '(transcript, outcome) :=
    initiate_chat initial (deref self (group_chat_messages self)) in
  let self1 :=
    {| heap := <[ group_chat_messages self := transcript ]> (heap self);
       llm_config := llm_config self;
       manager := manager self;
       group_chat_messages := group_chat_messages self;
       research_history := research_history self |} in
  match outcome with
  | Raise e => (self1, Raise e)
  | Return _ =>
      let msgs := deref self1 (group_chat_messages self1) in
      let research_results := _extract_research_results msgs in
      let duration := (end_time - start_time)%Z in
      let research_record :=
        {| topic := research_topic;
           timestamp := isoformat start_time;
           duration_seconds := duration;
           messages := group_chat_messages self1;
           results := research_results;
           agent_contributions := _analyze_agent_contributions msgs |} in
      ({| heap := heap self1;
          llm_config := llm_config self1;
          manager := manager self1;
          group_chat_messages := group_chat_messages self1;
          research_history := research_history self1 ++ [research_record] |},
       Return (Completed research_record))
  end.

(** [conduct_research]: the [try] block with its handler
    [except Exception as e]. *)
Definition conduct_research (self : ResearchWorkflow)
    (research_topic additional_instructions : string)
  : ResearchWorkflow * Exc ResearchResult :=
  match conduct_research_try self research_topic additional_instructions with
  | (self1, Return record) => (self1, Return record)
  | (self1, Raise e) =>
      (self1, Return (Degraded (str e) research_topic (isoformat start_time)))
  end.

End ConductResearch.

(** ** The report renderer *)

Section Report.
Context `{Formatting}.

(** [for i, finding in enumerate(results["findings"], 1)] *)
Fixpoint render_findings (i : nat) (fs : list Finding) (report : string)
  : string :=
  match fs with
  | [] => report
  | finding :: fs' =>
      render_findings (S i) fs'
        (report +:+ "### Finding " +:+ pretty i +:+ PyStr.nl +:+ PyStr.nl
         +:+ content finding +:+ PyStr.nl +:+ PyStr.nl)
  end.

(** [for source in results["sources"]] *)
Fixpoint render_sources (srcs : list string) (report : string) : string :=
  match srcs with
  | [] => report
  | source :: srcs' =>
      render_sources srcs' (report +:+ "- " +:+ source +:+ PyStr.nl)
  end.

(** The truth value of a [str]. *)
Definition truthy (s : string) : bool :=
  match s with
  | EmptyString => false
  | String _ _ => true
  end.

Definition render_report (research : ResearchRecord) : string :=
  let nl := PyStr.nl in
  let res := results research in
  let report :=
    "# Research Report" +:+ nl
    +:+ nl
    +:+ "**Topic**: " +:+ topic research +:+ nl
    +:+ "**Date**: " +:+ timestamp research +:+ nl
    +:+ "**Duration**: " +:+ format_1f (duration_seconds research)
    +:+ " seconds" +:+ nl
    +:+ nl
    +:+ "## Executive Summary" +:+ nl
    +:+ nl
    +:+ (if truthy (synthesis res) then synthesis res
         else "No synthesis available.") +:+ nl
    +:+ nl
    +:+ "## Detailed Findings" +:+ nl
    +:+ nl in
  let report := render_findings 1 (findings res) report in
  let report :=
    match sources res with
    | [] => report
    | _ :: _ =>
        render_sources (sources res)
          (report +:+ "## Sources" +:+ nl +:+ nl)
    end in
  let report :=
    if truthy (critique res)
    then report +:+ nl +:+ "## Critical Analysis" +:+ nl +:+ nl
         +:+ critique res +:+ nl
    else report in
  report +:+ nl +:+ "## Methodology" +:+ nl +:+ nl
  +:+ "This research was conducted using a multi-agent system with "
  +:+ pretty (size (agent_contributions research))
  +:+ " participating agents." +:+ nl.

(** [export_research_report] *)
Definition export_research_report (self : ResearchWorkflow) (index : Z)
  : Exc string :=
  let history := research_history self in
  if match history with [] => true | _ :: _ => false end
     || (Z.of_nat (length history) <? Z.abs index)%Z
  then Return "No research found."
  else
    research <- getitem history index ;;
    Return (render_report research).

End Report.

(** ** The search provider (web_search.py) *)

Module WebSearch.
Import PyStr.

(** *** The text clean-up of the fallback extraction *)

(** The characters [str.splitlines] breaks a line at. *)
Definition is_linebreak (c : ascii) : bool :=
  let n := nat_of_ascii c in
  (10 <=? n) && (n <=? 13) || (28 <=? n) && (n <=? 30) || (n =? 133).

(** The characters [str.strip] removes. *)
Definition is_space (c : ascii) : bool :=
  let n := nat_of_ascii c in
  (9 <=? n) && (n <=? 13) || (28 <=? n) && (n <=? 32) || (n =? 133)
  || (n =? 160).

Definition snoc (s : string) (c : ascii) : string := s +:+ String c "".

(** [text.splitlines()]; [line] holds the characters of the line
    being read.  A carriage return followed by a line feed is one
    boundary, and a boundary at the very end opens no further line. *)
Fixpoint splitlines_from (line s : string) : list string :=
  match s with
  | EmptyString =>
      match line with
      | EmptyString => []
      | String _ _ => [line]
      end
  | String c s' =>
      if is_linebreak c then
        line ::
        match s' with
        | String c' s'' =>
            if (nat_of_ascii c =? 13) && (nat_of_ascii c' =? 10)
            then splitlines_from "" s''
            else splitlines_from "" s'
        | EmptyString => splitlines_from "" s'
        end
      else splitlines_from (snoc line c) s'
  end.

Definition splitlines (s : string) : list string := splitlines_from "" s.

Fixpoint lstrip (s : string) : string :=
  match s with
  | EmptyString => ""
  | String c s' => if is_space c then lstrip s' else s
  end.

Fixpoint rstrip (s : string) : string :=
  match s with
  | EmptyString => ""
  | String c s' =>
      match rstrip s' with
      | EmptyString => if is_space c then "" else String c ""
      | String _ _ as r => String c r
      end
  end.

(** [s.strip()] *)
Definition strip (s : string) : string := rstrip (lstrip s).

(** [line.split("  ")]: split at every pair of blanks, from the left. *)
Fixpoint split_from (cur s : string) : list string :=
  match s with
  | EmptyString => [cur]
  | String c s' =>
      match s' with
      | String c' s'' =>
          if (nat_of_ascii c =? 32) && (nat_of_ascii c' =? 32)
          then cur :: split_from "" s''
          else split_from (snoc cur c) s'
      | EmptyString => split_from (snoc cur c) s'
      end
  end.

Definition split_blanks (s : string) : list string := split_from "" s.

Definition nonempty (s : string) : bool :=
  match s with
  | EmptyString => false
  | String _ _ => true
  end.

(** [[
    lines = (line.strip() for line in text.splitlines())
    chunks = (phrase.strip() for line in lines for phrase in line.split("  "))
    text = ' '.join(chunk for chunk in chunks if chunk)
    ]] *)
Definition clean_text (text : string) : string :=
  let lines := map strip (splitlines text) in
  let chunks :=
    concat (map (fun line => map strip (split_blanks line)) lines) in
  join " " (List.filter nonempty chunks).

(** *** What the provider calls *)

(** One search hit [{"title": ..., "link": ..., "snippet": ...}]. *)
Record Hit := mkHit { hit_title : string; link : string; snippet : string }.

(** What newspaper's [Article] holds after [download()], [parse()]
    and [nlp()]; [publish_date] is already printed with [str]. *)
Record Article := mkArticle {
  title : string;
  authors : list string;
  publish_date : option string;
  text : string;
  summary : string;
  keywords : list string
}.

(** A parsed page: [get_text()] once the [script] and [style] elements
    are taken out, and [soup.title] with its [string] ([None] when
    absent). *)
Record Soup := mkSoup {
  get_text : string;
  soup_title : option (option string)
}.

(** The dict returned by the extraction: the six entries of the
    newspaper path, or the three of the fallback.  A title may be
    Python's [None]. *)
Inductive Content :=
  | Rich (a : Article)
  | Basic (title : option string) (text summary : string).

(** The libraries behind the provider.  Every call may raise. *)
Class Web := {
  (** [self.ddgs.text(query, max_results=...)], iterated to its end *)
  ddgs_text : string -> nat -> Exc (list (gmap string string));
  (** whether [from newspaper import Article] worked *)
  NEWSPAPER_AVAILABLE : bool;
  (** [Article(url)], [download()], [parse()], [nlp()] *)
  article : string -> Exc Article;
  (** [requests.get(url, timeout=10)] and [BeautifulSoup(...)] *)
  soup : string -> Exc Soup
}.

Section Provider.
Context `{Web}.
Variable max_results : nat.

(** [search] *)
Definition search (query : string) : Exc (list Hit) :=
  try_except
    (search_results <- ddgs_text query max_results ;;
     Return
       (map (fun result =>
               {| hit_title := dict_get result "title" "";
                  link := dict_get result "link" "";
                  snippet := dict_get result "body" "" |})
            search_results))
    (fun e => Return []).

(** [_fallback_extract] *)
Definition _fallback_extract (url : string) : Exc Content :=
  try_except
    (page <- soup url ;;
     let text := clean_text (get_text page) in
     Return
       (Basic
          (match soup_title page with
           | Some t => t
           | None => Some ""
           end)
          (str_take 5000 text)
          (str_take 500 text)))
    (fun e => Return (Basic (Some "") "" "")).

(** [extract_article_content] *)
Definition extract_article_content (url : string) : Exc Content :=
  if NEWSPAPER_AVAILABLE then
    try_except
      (a <- article url ;; Return (Rich a))
      (fun e => _fallback_extract url)
  else _fallback_extract url.

End Provider.

End WebSearch.

(** ** States the workflow can reach, and sample runs *)

(** The states of a workflow object: built by [__init__], then any
    sequence of [reset] and [conduct_research] with any driver and any
    clock readings. *)
Inductive reachable `{Formatting} : ResearchWorkflow -> Prop :=
  | reach_init (h : gmap loc (list Message)) (cfg : LlmConfig) :
      reachable (__init__ h cfg)
  | reach_reset (self : ResearchWorkflow) :
      reachable self -> reachable (reset self)
  | reach_conduct (self : ResearchWorkflow) (driver : Driver)
      (start_time end_time : Z) (research_topic instructions : string) :
      reachable self ->
      reachable (fst (conduct_research driver start_time end_time self
                        research_topic instructions)).

(** A formatting to run the examples with: readings and durations are
    printed as whole numbers.  Every theorem below holds for any
    formatting. *)
Definition sample_formatting : Formatting :=
  {| isoformat := fun t => pretty t;
     format_1f := fun d => pretty (d / 1000000)%Z +:+ ".0" |}.

(** A driver that appends the messages [said] and returns. *)
Definition talking_driver (said : list Message) : Driver :=
  fun _ present => (present ++ said, Return ()).

(** A driver that appends the messages [said] and then raises [e]. *)
Definition failing_driver (said : list Message) (e : exn) : Driver :=
  fun _ present => (present ++ said, Raise e).

Definition sample_config : LlmConfig := {[ "config_list" := "[...]" ]}.

(** A fresh workflow, and the workflow after one completed run on the
    transcript of the end-to-end example. *)
Definition fresh_workflow : ResearchWorkflow := __init__ ∅ sample_config.

Definition after_one_run : ResearchWorkflow :=
  fst (@conduct_research sample_formatting
         (talking_driver (example_transcript synthesis_120))
         0 5000000 fresh_workflow "solar power" "").

(** A transcript with two long synthesis and two long critique
    messages. *)
Definition critique_120 : string :=
  "The synthesis leans on two vendor reports and one preprint; none of the cost figures is checked against audited data....".

Definition overwrite_transcript : list Message :=
  [ message "synthesis_agent" (synthesis_120 +:+ " (draft)");
    message "critique_agent" (critique_120 +:+ " (first pass)");
    message "synthesis_agent" synthesis_120;
    message "critique_agent" critique_120 ].

(** A research message below the short threshold that names a URL. *)
Definition short_research : string := "See https://example.com/b".

(** A web in which the search and newspaper fail, one page can be
    fetched and every other URL is out of reach. *)
Definition sample_page : WebSearch.Soup :=
  {| WebSearch.get_text :=
       "  Solar   power  " +:+ PyStr.nl +:+ PyStr.nl
       +:+ " Costs fell  again " +:+ PyStr.nl;
     WebSearch.soup_title := Some (Some "Solar power") |}.

Definition sample_web : WebSearch.Web :=
  {| WebSearch.ddgs_text := fun _ _ => Raise (Exception "timed out");
     WebSearch.NEWSPAPER_AVAILABLE := true;
     WebSearch.article := fun _ => Raise (Exception "download failed");
     WebSearch.soup := fun url =>
       if String.eqb url "https://example.com/a" then Return sample_page
       else Raise (Exception "connection refused") |}.

(** ** More of workflow.py: the summary of a stored record *)

(** The dict [get_research_summary] returns. *)
Record Summary := mkSummary {
  summary_topic : string;
  summary_timestamp : string;
  summary_duration_seconds : Z;
  total_messages : nat;
  summary_agent_contributions : gmap string nat;
  sources_count : nat;
  has_synthesis : bool;
  has_critique : bool
}.

(** The dict built from the record [research], read in state [self]:
    [len(research["messages"])] looks at the list object the record
    refers to. *)
Definition summary_of (self : ResearchWorkflow) (research : ResearchRecord)
  : Summary :=
  {| summary_topic := topic research;
     summary_timestamp := timestamp research;
     summary_duration_seconds := duration_seconds research;
     total_messages := length (record_messages self research);
     summary_agent_contributions := agent_contributions research;
     sources_count := length (sources (results research));
     has_synthesis := truthy (synthesis (results research));
     has_critique := truthy (critique (results research)) |}.

(** [get_research_summary]; [None] is Python's [None]. *)
Definition get_research_summary (self : ResearchWorkflow) (index : Z)
  : Exc (option Summary) :=
  let history := research_history self in
  if match history with [] => true | _ :: _ => false end
     || (Z.of_nat (length history) <? Z.abs index)%Z
  then Return None
  else
    research <- getitem history index ;;
    Return (Some (summary_of self research)).

(** The states a workflow object can move to from a given state, by any
    sequence of [reset] and [conduct_research]. *)
Inductive evolves `{Formatting} (self : ResearchWorkflow)
  : ResearchWorkflow -> Prop :=
  | evolves_here : evolves self self
  | evolves_reset (later : ResearchWorkflow) :
      evolves self later -> evolves self (reset later)
  | evolves_conduct (later : ResearchWorkflow) (driver : Driver)
      (start_time end_time : Z) (research_topic instructions : string) :
      evolves self later ->
      evolves self (fst (conduct_research driver start_time end_time later
                           research_topic instructions)).

(** ** More Python strings *)

Module PyText.

(** [s[n:]]. *)
Fixpoint str_drop (n : nat) (s : string) : string :=
  match n, s with
  | S n', String _ s' => str_drop n' s'
  | _, _ => s
  end.

(** [s.endswith(suffix)]. *)
Definition endswith (suffix s : string) : bool :=
  (String.length suffix <=? String.length s)
  && String.eqb (str_drop (String.length s - String.length suffix) s) suffix.

(** [s.replace(old, new)] where [old] and [new] are single characters. *)
Fixpoint replace_char (old new : ascii) (s : string) : string :=
  match s with
  | EmptyString => ""
  | String c s' =>
      String (if Ascii.eqb c old then new else c) (replace_char old new s')
  end.

(** The characters of a string. *)
Definition chars (s : string) : list ascii := String.list_ascii_of_string s.

End PyText.

(** ** agents.py: when the user proxy ends the conversation *)

(** [lambda x: x.get("content", "").rstrip().endswith("TERMINATE")] *)
Definition is_termination_msg (x : Message) : bool :=
  PyText.endswith "TERMINATE" (WebSearch.rstrip (dict_get x "content" "")).

(** ** config.py *)

Module Config.

(** The class attributes the two class methods read. *)
Record Settings := mkSettings {
  OPENAI_API_KEY : string;
  DEFAULT_MODEL : string
}.

(** [get_llm_config]; the [ValueError] is an exception with its text. *)
Definition get_llm_config (cls : Settings)
  : Exc (gmap string (list (gmap string string))) :=
  if negb (truthy (OPENAI_API_KEY cls))
  then Raise (Exception "OpenAI API key is not set.")
  else
    let config_list :=
      [ <[ "model" := DEFAULT_MODEL cls ]>
          {[ "api_key" := OPENAI_API_KEY cls ]} ] in
    Return {[ "config_list" := config_list ]}.

(** [validate_config] *)
Definition validate_config (cls : Settings) : bool :=
  if negb (truthy (OPENAI_API_KEY cls)) then false else true.

End Config.

(** ** demo.py: the topic and the names of the files written *)

Module Demo.

Definition default_topic : string :=
  "Impact of artificial intelligence on healthcare".

(** [[
    research_topic = input(...).strip()
    if not research_topic:
        research_topic = "Impact of artificial intelligence on healthcare"
    ]] *)
Definition choose_topic (typed : string) : string :=
  let research_topic := WebSearch.strip typed in
  if negb (truthy research_topic) then default_topic else research_topic.

(** [f"research_report_{research_topic.replace(' ', '_')[:30]}.md"] *)
Definition report_filename (research_topic : string) : string :=
  "research_report_"
  +:+ PyStr.str_take 30 (PyText.replace_char " " "_" research_topic)
  +:+ ".md".

(** [f"research_data_{research_topic.replace(' ', '_')[:30]}.json"] *)
Definition raw_filename (research_topic : string) : string :=
  "research_data_"
  +:+ PyStr.str_take 30 (PyText.replace_char " " "_" research_topic)
  +:+ ".json".

End Demo.

(** ** app.py: the history tab and the analytics tab *)

Module App.


(** [[
    for agent, count in research.get('agent_contributions', {}).items():
        agent_stats[agent] = agent_stats.get(agent, 0) + count
    ]] *)
Definition add_contributions (agent_stats contributions : gmap string nat)
  : gmap string nat :=
  map_fold
    (fun agent count stats =>
       <[ agent := default 0 (stats !! agent) + count ]> stats)
    agent_stats contributions.

(** The agent participation of the analytics tab, over the records of
    the history. *)
Definition agent_stats (history : list ResearchRecord) : gmap string nat :=
  fold_left
    (fun stats research =>
       add_contributions stats (agent_contributions research))
    history ∅.

End App.

(** ** Vocabulary for further statements about the extractor *)

(** A message the loop of the extractor does something with: any
    message of the research agent, and the long messages of the
    synthesis and critique agents. *)
Definition inspected (m : Message) : bool :=
  is_research m || long_from "synthesis_agent" m
  || long_from "critique_agent" m.

(** A message of the user proxy. *)
Definition from_user_proxy (m : Message) : bool :=
  String.eqb (msg_name m) "user_proxy".

(** [u] occurs in [s]. *)
Definition occurs_in (u s : string) : Prop :=
  exists before after, s = before +:+ u +:+ after.

(** ** Vocabulary for the statements about the store *)

(** The guard of the summary and of the report. *)
Definition guarded (self : ResearchWorkflow) (index : Z) : bool :=
  match research_history self with [] => true | _ :: _ => false end
  || (Z.of_nat (length (research_history self)) <? Z.abs index)%Z.

(** The first character of a string. *)
Definition first (s : string) : option ascii :=
  match s with
  | EmptyString => None
  | String c _ => Some c
  end.

(** ** Vocabulary for the statements about text *)

(** The last character of a string. *)
Fixpoint last_char (s : string) : option ascii :=
  match s with
  | EmptyString => None
  | String c s' =>
      match s' with
      | EmptyString => Some c
      | String _ _ => last_char s'
      end
  end.

(** A string with no white space at its ends. *)
Definition trimmed (s : string) : bool :=
  match first s with
  | Some c => negb (WebSearch.is_space c)
  | None => true
  end
  && match last_char s with
     | Some c => negb (WebSearch.is_space c)
     | None => true
     end.

(** A string made of white space. *)
Definition all_space (s : string) : bool :=
  forallb WebSearch.is_space (PyText.chars s).

(** A string in which no two blanks follow each other. *)
Fixpoint no_blank_pair (s : string) : bool :=
  match s with
  | EmptyString => true
  | String c s' =>
      match s' with
      | EmptyString => true
      | String c' _ =>
          negb ((nat_of_ascii c =? 32) && (nat_of_ascii c' =? 32))
          && no_blank_pair s'
      end
  end.

(** A string with no line boundary in it. *)
Definition one_line (s : string) : bool :=
  forallb (fun c => negb (WebSearch.is_linebreak c)) (PyText.chars s).

(** The blank. *)
Definition is_blank (c : ascii) : bool := nat_of_ascii c =? 32.

(** Whether the character at an end of a string, if there is one, is a
    blank. *)
Definition blank_end (o : option ascii) : bool :=
  match o with
  | Some c => is_blank c
  | None => false
  end.

(** Every character of a string passes [p]. *)
Definition all_chars (p : ascii -> bool) (s : string) : bool :=
  forallb p (PyText.chars s).

(** The text the clean-up aims at: one line, no white space at the
    ends, no two blanks in a row. *)
Definition clean (s : string) : bool :=
  one_line s && trimmed s && no_blank_pair s.

(** A chunk the clean-up keeps: not empty, and clean. *)
Definition kept (x : string) : Prop := x <> "" /\ clean x = true.

(** ** Facts about the URL pattern *)

Section PatternFacts.
Import PyStr.

(** The alternative for percent escapes never decides a match: a percent
    sign already belongs to the class [[$-_@.&+]]. *)
Lemma group_iter_char (c : ascii) (r : string) :
  Re.group_iter (String c r) = if Re.url_char c then Some r else None.
Proof.
  destruct c as [[] [] [] [] [] [] [] []]; reflexivity.
Qed.

Lemma group_iter_shorter (s r : string) :
  Re.group_iter s = Some r -> String.length r < String.length s.
Proof.
  destruct s as [|c s]; [done |]. rewrite group_iter_char.
  destruct (Re.url_char c); [| done]. intros [= ->]. simpl. lia.
Qed.

(** The fuel of [tail_match] is enough: more of it changes nothing. *)
Lemma group_star_fuel (f1 f2 : nat) (s : string) :
  String.length s <= f1 -> String.length s <= f2 ->
  Re.group_star f1 s = Re.group_star f2 s.
Proof.
  revert f2 s; induction f1 as [|f1 IH]; intros f2 s H1 H2.
  - destruct s; [| simpl in H1; lia]. by destruct f2.
  - destruct f2 as [|f2].
    + destruct s; [done | simpl in H2; lia].
    + simpl. destruct (Re.group_iter s) as [r|] eqn:Hr; [| done].
      apply group_iter_shorter in Hr. apply IH; lia.
Qed.

(** The repetition stops only where the group matches no more. *)
Lemma group_star_maximal (f : nat) (s : string) :
  String.length s <= f -> Re.group_iter (Re.group_star f s) = None.
Proof.
  revert s; induction f as [|f IH]; intros s Hf.
  - by destruct s; [| simpl in Hf; lia].
  - simpl. destruct (Re.group_iter s) as [r|] eqn:Hr; [| done].
    apply group_iter_shorter in Hr. apply IH. lia.
Qed.

End PatternFacts.

(** The pattern on sample texts, as [re.findall] reports them. *)
Example findall_prose :
  Re.findall
    "see http://a.b/c?d=%41#frag, and (https://x.y/z) or http:// or https://q!http://r "
  = ["http://a.b/c?d=%41"; "https://x.y/z)"; "https://q!http://r"].
Proof. reflexivity. Qed.

Example findall_near_misses :
  Re.findall "httpss://a https:/x http://\x~y https://%zz%4 HTTP://a.b http://"
  = ["http://\x"; "https://%zz%4"].
Proof. reflexivity. Qed.

Example findall_example_research :
  Re.findall example_research
  = ["https://example.com/a"; "https://example.com/a"].
Proof. reflexivity. Qed.

(** ** The helpers on sample values *)

Example getitem_samples :
  getitem [10; 20; 30] (-3) = Return 10
  /\ getitem [10; 20; 30] 2 = Return 30
  /\ getitem [10; 20; 30] (-4) = Raise IndexError
  /\ getitem [10; 20; 30] 3 = Raise IndexError.
Proof. repeat split. Qed.

Example splitlines_samples :
  WebSearch.splitlines ("a" +:+ PyStr.nl) = ["a"]
  /\ WebSearch.splitlines ("a" +:+ PyStr.nl +:+ PyStr.nl +:+ "b") = ["a"; ""; "b"]
  /\ WebSearch.splitlines "" = []
  /\ WebSearch.splitlines PyStr.nl = [""].
Proof. repeat split. Qed.

Example split_blanks_samples :
  WebSearch.split_blanks "a    b" = ["a"; ""; "b"]
  /\ WebSearch.split_blanks "a   b" = ["a"; " b"]
  /\ WebSearch.split_blanks "" = [""].
Proof. repeat split. Qed.

Example clean_text_sample :
  WebSearch.clean_text (WebSearch.get_text sample_page)
  = "Solar power Costs fell again".
Proof. reflexivity. Qed.
(** ** Facts about the string helpers *)

Section StringFacts.
Import PyStr.

Lemma length_app (a b : string) :
  String.length (a +:+ b) = String.length a + String.length b.
Proof. induction a as [|c a IH]; simpl; [done | by rewrite IH]. Qed.

Lemma length_str_take (n : nat) (s : string) :
  String.length (str_take n s) = n `min` String.length s.
Proof.
  revert s; induction n as [|n IH]; intros [|c s]; simpl; try done.
  by rewrite IH.
Qed.

Lemma str_take_take (n k : nat) (s : string) :
  n <= k -> str_take n (str_take k s) = str_take n s.
Proof.
  revert k s; induction n as [|n IH]; intros [|k] [|c s] Hle; simpl;
    try done; try lia.
  f_equal. apply IH. lia.
Qed.

Lemma findall_from_no_http (s : string) (k : nat) :
  str_in "http" s = false -> Re.findall_from k s = [].
Proof.
  revert k; induction s as [|c s IH]; intros k Hin; [done |].
  cbn [str_in] in Hin.
  destruct (strip_prefix "http" (String c s)) as [r|] eqn:Hp; [done |].
  cbn [Re.findall_from]. destruct k as [|k]; [| by apply IH].
  unfold Re.match_here. rewrite Hp. by apply IH.
Qed.

(** The guard ["http" in content] drops no match of the pattern. *)
Lemma harvest_urls_findall (c : string) : harvest_urls c = Re.findall c.
Proof.
  unfold harvest_urls. destruct (str_in "http" c) eqn:Hin; [done |].
  symmetry. by apply findall_from_no_http.
Qed.

End StringFacts.

Section ExtractStep.

Lemma step_findings (r : Results) (m : Message) :
  findings (extract_step r m) =
  findings r ++ (if is_finding m then [finding_of m] else []).
Proof.
  unfold extract_step, is_finding, is_research, finding_of, msg_name,
    msg_content.
  destruct (String.eqb_spec (dict_get m "name" "") "research_agent")
    as [Hn|Hn].
  - rewrite Hn. simpl.
    destruct (50 <? _), (PyStr.str_in _ _); simpl;
      by rewrite ?app_nil_r.
  - simpl. rewrite app_nil_r. by repeat case_match.
Qed.

Lemma step_sources (r : Results) (m : Message) :
  sources (extract_step r m) =
  sources r ++ (if is_research m then Re.findall (msg_content m) else []).
Proof.
  unfold extract_step, is_research, msg_name, msg_content.
  destruct (String.eqb (dict_get m "name" "") "research_agent").
  - pose proof (harvest_urls_findall (dict_get m "content" "")) as Hh.
    unfold harvest_urls in Hh.
    destruct (50 <? _), (PyStr.str_in _ _); simpl;
      rewrite <- ?Hh, ?app_nil_r; done.
  - rewrite app_nil_r. by repeat case_match.
Qed.

Lemma step_synthesis (r : Results) (m : Message) :
  synthesis (extract_step r m) =
  if long_from "synthesis_agent" m then msg_content m else synthesis r.
Proof.
  unfold extract_step, long_from, msg_name, msg_content.
  destruct (String.eqb_spec (dict_get m "name" "") "research_agent")
    as [Hn|Hn].
  - rewrite Hn. simpl. by destruct (50 <? _), (PyStr.str_in _ _).
  - by repeat case_match.
Qed.

Lemma step_critique (r : Results) (m : Message) :
  critique (extract_step r m) =
  if long_from "critique_agent" m then msg_content m else critique r.
Proof.
  unfold extract_step, long_from, msg_name, msg_content.
  destruct (String.eqb_spec (dict_get m "name" "") "research_agent")
    as [Hn|Hn].
  - rewrite Hn. simpl. by destruct (50 <? _), (PyStr.str_in _ _).
  - destruct (String.eqb_spec (dict_get m "name" "") "synthesis_agent")
      as [Hs|Hs].
    + rewrite Hs. simpl. by destruct (100 <? _).
    + simpl. by repeat case_match.
Qed.

End ExtractStep.

Section ExtractLoop.

Lemma loop_findings (ms : list Message) (r : Results) :
  findings (fold_left extract_step ms r) =
  findings r ++ map finding_of (List.filter is_finding ms).
Proof.
  revert r; induction ms as [|m ms IH]; intros r; simpl.
  - by rewrite app_nil_r.
  - rewrite IH, step_findings, <- app_assoc. by destruct (is_finding m).
Qed.

Lemma loop_sources (ms : list Message) (r : Results) :
  sources (fold_left extract_step ms r) =
  sources r ++
  concat (map (fun m => Re.findall (msg_content m))
              (List.filter is_research ms)).
Proof.
  revert r; induction ms as [|m ms IH]; intros r; simpl.
  - by rewrite app_nil_r.
  - rewrite IH, step_sources, <- app_assoc.
    destruct (is_research m); simpl; by rewrite ?app_nil_r.
Qed.

(** The last element of the messages that pass [p], seen from the
    front of the list. *)
Lemma last_filter_cons (p : Message -> bool) (m : Message)
    (ms : list Message) :
  last (List.filter p (m :: ms)) =
  match last (List.filter p ms) with
  | Some x => Some x
  | None => if p m then Some m else None
  end.
Proof.
  simpl. destruct (p m); [| by destruct (last _)].
  destruct (List.filter p ms) as [|y l] eqn:Hf; [done |].
  rewrite last_cons. by destruct (last (y :: l)).
Qed.

Lemma loop_synthesis (ms : list Message) (r : Results) :
  synthesis (fold_left extract_step ms r) =
  match last (List.filter (long_from "synthesis_agent") ms) with
  | Some m => msg_content m
  | None => synthesis r
  end.
Proof.
  revert r; induction ms as [|m ms IH]; intros r; [done |].
  rewrite last_filter_cons. cbn [fold_left]. rewrite IH, step_synthesis.
  destruct (last _); [done |]. by destruct (long_from _ m).
Qed.

Lemma loop_critique (ms : list Message) (r : Results) :
  critique (fold_left extract_step ms r) =
  match last (List.filter (long_from "critique_agent") ms) with
  | Some m => msg_content m
  | None => critique r
  end.
Proof.
  revert r; induction ms as [|m ms IH]; intros r; [done |].
  rewrite last_filter_cons. cbn [fold_left]. rewrite IH, step_critique.
  destruct (last _); [done |]. by destruct (long_from _ m).
Qed.

End ExtractLoop.

(** ** The contribution analyzer *)

Section Contributions.

Lemma total_empty : total ∅ = 0.
Proof. apply map_fold_empty. Qed.

Lemma total_insert_fresh (m : gmap string nat) (k : string) (v : nat) :
  m !! k = None -> total (<[ k := v ]> m) = v + total m.
Proof.
  intros Hk. unfold total. apply map_fold_insert_L; [| done].
  intros. lia.
Qed.

Lemma total_insert (m : gmap string nat) (k : string) (v : nat) :
  total (<[ k := v ]> m) + default 0 (m !! k) = total m + v.
Proof.
  destruct (m !! k) as [w|] eqn:Hk; simpl.
  - rewrite <- (insert_delete_eq m k v).
    rewrite total_insert_fresh by apply lookup_delete_eq.
    rewrite <- (insert_id m k w Hk) at 2.
    rewrite <- (insert_delete_eq m k w).
    rewrite total_insert_fresh by apply lookup_delete_eq.
    lia.
  - rewrite total_insert_fresh by done. lia.
Qed.

Lemma count_loop_total (ms : list Message) (c : gmap string nat) :
  total (fold_left count_step ms c) = total c + length ms.
Proof.
  revert c; induction ms as [|m ms IH]; intros c; simpl; [lia |].
  rewrite IH. unfold count_step.
  pose proof (total_insert c (dict_get m "name" "unknown")
                (default 0 (c !! dict_get m "name" "unknown") + 1)).
  lia.
Qed.

Lemma count_loop_lookup (ms : list Message) (c : gmap string nat)
    (name : string) :
  default 0 (fold_left count_step ms c !! name) =
  default 0 (c !! name) + count_speaker name ms.
Proof.
  revert c; induction ms as [|m ms IH]; intros c; simpl.
  - unfold count_speaker. simpl. lia.
  - rewrite IH. unfold count_step, count_speaker, speaker. simpl.
    destruct (String.eqb_spec (dict_get m "name" "unknown") name)
      as [->|Hne].
    + rewrite lookup_insert_eq. simpl. lia.
    + rewrite lookup_insert_ne by done. lia.
Qed.

Lemma count_loop_positive (ms : list Message) (c : gmap string nat) :
  map_Forall (fun _ v => 0 < v) c ->
  map_Forall (fun _ v => 0 < v) (fold_left count_step ms c).
Proof.
  revert c; induction ms as [|m ms IH]; intros c Hc; [done |].
  simpl. apply IH. unfold count_step.
  apply map_Forall_insert_2; [lia | done].
Qed.

End Contributions.

(** C7.  The contribution analyzer is a total function of the
    transcript: every name is mapped to the number of messages counted
    under it (a message without a name counts under "unknown", a name
    with no message has no entry), the values sum to the length of the
    transcript, and the empty transcript gives the empty mapping. *)
Theorem analyzer_counts_messages (ms : list Message) :
  (forall name : string,
      _analyze_agent_contributions ms !! name =
      if count_speaker name ms =? 0 then None
      else Some (count_speaker name ms))
  /\ total (_analyze_agent_contributions ms) = length ms
  /\ _analyze_agent_contributions [] = ∅.
Proof.
  split; [| split].
  - intros name.
    pose proof (count_loop_lookup ms ∅ name) as Hl.
    pose proof (count_loop_positive ms ∅ (map_Forall_empty _)) as Hp.
    fold (_analyze_agent_contributions ms) in Hl, Hp.
    rewrite lookup_empty in Hl. simpl in Hl.
    destruct (_analyze_agent_contributions ms !! name) as [v|] eqn:Hv.
    + apply Hp in Hv. simpl in Hl. rewrite <- Hl.
      destruct (Nat.eqb_spec v 0); [lia | done].
    + simpl in Hl. by rewrite <- Hl.
  - unfold _analyze_agent_contributions.
    rewrite count_loop_total, total_empty. lia.
  - done.
Qed.

(** ** The result extractor on whole transcripts *)

Section Extractor.
Import PyStr.

Lemma extract_findings (ms : list Message) :
  findings (_extract_research_results ms) =
  map finding_of (List.filter is_finding ms).
Proof. unfold _extract_research_results. simpl. by rewrite loop_findings. Qed.

Lemma extract_synthesis (ms : list Message) :
  synthesis (_extract_research_results ms) =
  match last (List.filter (long_from "synthesis_agent") ms) with
  | Some m => msg_content m
  | None => ""
  end.
Proof. unfold _extract_research_results. simpl. by rewrite loop_synthesis. Qed.

Lemma extract_critique (ms : list Message) :
  critique (_extract_research_results ms) =
  match last (List.filter (long_from "critique_agent") ms) with
  | Some m => msg_content m
  | None => ""
  end.
Proof. unfold _extract_research_results. simpl. by rewrite loop_critique. Qed.

(** The sources are the URLs of the research messages, each once. *)
Lemma extract_sources_elem (ms : list Message) (u : string) :
  u ∈ sources (_extract_research_results ms) <->
  exists m, m ∈ ms /\ is_research m = true /\ u ∈ Re.findall (msg_content m).
Proof.
  unfold _extract_research_results, list_set. simpl.
  rewrite elem_of_elements, elem_of_list_to_set, loop_sources. simpl.
  rewrite list_elem_of_In, in_concat. split.
  - intros (us & Hus & Hu).
    apply in_map_iff in Hus as (m & <- & Hm).
    apply filter_In in Hm as [Hm Hr].
    exists m. by rewrite !list_elem_of_In.
  - intros (m & Hm & Hr & Hu).
    exists (Re.findall (msg_content m)). split.
    + apply in_map_iff. exists m. split; [done |].
      apply filter_In. by rewrite <- list_elem_of_In.
    + by apply list_elem_of_In.
Qed.

Lemma filter_length_le (p q : Message -> bool) (ms : list Message) :
  (forall m, p m = true -> q m = true) ->
  length (List.filter p ms) <= length (List.filter q ms).
Proof.
  intros Hpq. induction ms as [|m ms IH]; simpl; [lia |].
  destruct (p m) eqn:Hp.
  - rewrite (Hpq m Hp). simpl. lia.
  - destruct (q m); simpl; lia.
Qed.

Lemma message_content (name text : string) :
  msg_content (message name text) = text.
Proof. done. Qed.

Lemma message_name (name text : string) :
  msg_name (message name text) = name.
Proof. done. Qed.

(** Lengths of joined strings. *)
Lemma length_join (sep : string) (l : list string) :
  sum_list (map String.length l) <= String.length (join sep l).
Proof.
  induction l as [|a [|b l] IH]; simpl in *; [lia | lia |].
  rewrite !length_app. lia.
Qed.

Lemma last_shorter_than_sum (l : list string) (x : string) :
  2 <= length l -> last l = Some x ->
  Forall (fun y => 0 < String.length y) l ->
  String.length x < sum_list (map String.length l).
Proof.
  induction l as [|a [|b l] IH]; intros Hlen Hlast Hpos; simpl in *;
    [lia | lia |].
  inversion Hpos as [|? ? Ha Hpos']; subst.
  destruct l as [|c l].
  - simpl in *. inversion Hlast; subst. lia.
  - assert (String.length x < sum_list (map String.length (b :: c :: l))).
    { apply IH; [simpl; lia | done | done]. }
    simpl in *. lia.
Qed.

Lemma last_map {A B : Type} (f : A -> B) (l : list A) :
  last (map f l) = f <$> last l.
Proof.
  induction l as [|a [|b l] IH]; [done | done |].
  change (map f (a :: b :: l)) with (f a :: map f (b :: l)).
  change (map f (b :: l)) with (f b :: map f l) in *.
  rewrite !last_cons_cons. done.
Qed.

(** Last writer wins, for either role. *)
Lemma last_writer_wins (role : string) (ms : list Message) (v : string) :
  v = match last (List.filter (long_from role) ms) with
      | Some m => msg_content m
      | None => ""
      end ->
  2 <= length (List.filter (long_from role) ms) ->
  exists m,
    last (List.filter (long_from role) ms) = Some m
    /\ v = msg_content m
    /\ forall sep,
        v <> join sep (map msg_content (List.filter (long_from role) ms)).
Proof.
  intros Hv Hlen.
  destruct (last (List.filter (long_from role) ms)) as [m|] eqn:Hlast.
  2:{ apply last_None in Hlast. rewrite Hlast in Hlen. simpl in Hlen. lia. }
  exists m. split; [done |]. split; [done |].
  intros sep Heq.
  pose proof (length_join sep
    (map msg_content (List.filter (long_from role) ms))) as Hj.
  assert (String.length (msg_content m) <
          sum_list (map String.length
            (map msg_content (List.filter (long_from role) ms)))) as Hs.
  { apply last_shorter_than_sum.
    - by rewrite length_map.
    - by rewrite last_map, Hlast.
    - apply List.Forall_map, List.Forall_forall. intros y Hy.
      apply filter_In in Hy as [_ Hy].
      unfold long_from in Hy. apply andb_true_iff in Hy as [_ Hy].
      apply Nat.ltb_lt in Hy. lia. }
  rewrite <- Heq, Hv in Hj. lia.
Qed.

End Extractor.

(** ** The end-to-end example *)

(** C2, as the specification has it, fails: the research message of the
    example is 64 characters long, above the short threshold, so the
    extractor reports it as a finding. *)
Lemma example_findings_not_empty :
  String.length synthesis_120 = 120
  /\ String.length example_research = 64
  /\ findings (_extract_research_results (example_transcript synthesis_120))
     <> [].
Proof. split; [done |]. split; [done |]. by vm_compute. Qed.

(** C2, amended.  For the transcript of the example, with any synthesis
    text of 120 characters, the extractor returns the single source
    https://example.com/a, one finding holding the research message
    (64 characters, above the threshold of 50) and the synthesis text as
    synthesis. *)
Theorem example_extraction (s : string) :
  String.length s = 120 ->
  let r := _extract_research_results (example_transcript s) in
  sources r = ["https://example.com/a"]
  /\ findings r =
     [ {| content := example_research; agent := "research_agent" |} ]
  /\ synthesis r = s.
Proof.
  intros Hs r. subst r. split; [| split].
  - unfold _extract_research_results. cbn [sources set_sources].
    rewrite loop_sources. by vm_compute.
  - rewrite extract_findings. by vm_compute.
  - rewrite extract_synthesis. unfold example_transcript.
    assert (long_from "synthesis_agent" (message "synthesis_agent" s) = true)
      as Hlong.
    { unfold long_from. rewrite message_name, message_content, Hs. done. }
    cbn [List.filter]. rewrite Hlong.
    replace (long_from "synthesis_agent"
               (message "research_agent" example_research)) with false
      by (by vm_compute).
    done.
Qed.

Lemma example_extraction_witness :
  String.length synthesis_120 = 120
  /\ let r := _extract_research_results (example_transcript synthesis_120) in
     sources r = ["https://example.com/a"]
     /\ findings r =
        [ {| content := example_research; agent := "research_agent" |} ]
     /\ synthesis r = synthesis_120.
Proof.
  split; [reflexivity |].
  apply (example_extraction synthesis_120). reflexivity.
Defined.

(** ** Properties of the extractor over all transcripts *)

(** C4.  When two or more messages of the synthesis agent are longer
    than 100 characters, the extracted synthesis is the content of the
    last of them, and it is not those messages joined together, with
    whatever separator; the same holds for the critique agent and the
    extracted critique. *)
Theorem synthesis_and_critique_last_writer_wins (ms : list Message) :
  let r := _extract_research_results ms in
  (2 <= length (List.filter (long_from "synthesis_agent") ms) ->
   exists m,
     last (List.filter (long_from "synthesis_agent") ms) = Some m
     /\ synthesis r = msg_content m
     /\ forall sep,
         synthesis r <>
         PyStr.join sep
           (map msg_content (List.filter (long_from "synthesis_agent") ms)))
  /\
  (2 <= length (List.filter (long_from "critique_agent") ms) ->
   exists m,
     last (List.filter (long_from "critique_agent") ms) = Some m
     /\ critique r = msg_content m
     /\ forall sep,
         critique r <>
         PyStr.join sep
           (map msg_content (List.filter (long_from "critique_agent") ms))).
Proof.
  intros r. subst r. split; intros Hlen.
  - apply last_writer_wins; [apply extract_synthesis | done].
  - apply last_writer_wins; [apply extract_critique | done].
Qed.

(** C5.  The findings are the research messages longer than 50
    characters, in transcript order; so there are at most as many
    findings as research messages, every finding is longer than 50
    characters, and the URLs of every research message, whatever its
    length, are among the sources. *)
Theorem findings_are_long_research_messages (ms : list Message) :
  let r := _extract_research_results ms in
  findings r = map finding_of (List.filter is_finding ms)
  /\ length (findings r) <= length (List.filter is_research ms)
  /\ Forall (fun f => 50 < String.length (content f)) (findings r)
  /\ (forall m u,
         m ∈ ms -> is_research m = true ->
         u ∈ harvest_urls (msg_content m) -> u ∈ sources r).
Proof.
  intros r. subst r. rewrite extract_findings. split; [done |].
  split; [| split].
  - rewrite length_map. apply filter_length_le.
    intros m Hm. unfold is_finding in Hm.
    by apply andb_true_iff in Hm as [Hm _].
  - apply Forall_fmap, Forall_forall. intros m Hm.
    apply list_elem_of_In, filter_In in Hm as [_ Hm].
    unfold is_finding in Hm. apply andb_true_iff in Hm as [_ Hm].
    apply Nat.ltb_lt in Hm. done.
  - intros m u Hm Hr Hu. rewrite harvest_urls_findall in Hu.
    apply extract_sources_elem. eauto.
Qed.

(** C6.  The sources the extractor returns hold no URL twice. *)
Theorem sources_have_no_duplicates (ms : list Message) :
  NoDup (sources (_extract_research_results ms)).
Proof.
  unfold _extract_research_results, list_set. simpl. apply NoDup_elements.
Qed.

Lemma synthesis_and_critique_last_writer_wins_witness :
  let r := _extract_research_results overwrite_transcript in
  (2 <= length (List.filter (long_from "synthesis_agent") overwrite_transcript)
   /\ exists m,
       last (List.filter (long_from "synthesis_agent") overwrite_transcript)
       = Some m
       /\ synthesis r = msg_content m
       /\ forall sep,
           synthesis r <>
           PyStr.join sep
             (map msg_content
                (List.filter (long_from "synthesis_agent")
                   overwrite_transcript)))
  /\
  (2 <= length (List.filter (long_from "critique_agent") overwrite_transcript)
   /\ exists m,
       last (List.filter (long_from "critique_agent") overwrite_transcript)
       = Some m
       /\ critique r = msg_content m
       /\ forall sep,
           critique r <>
           PyStr.join sep
             (map msg_content
                (List.filter (long_from "critique_agent")
                   overwrite_transcript))).
Proof.
  split; (split; [vm_compute; lia |]).
  - apply (proj1 (synthesis_and_critique_last_writer_wins
                    overwrite_transcript)).
    vm_compute; lia.
  - apply (proj2 (synthesis_and_critique_last_writer_wins
                    overwrite_transcript)).
    vm_compute; lia.
Defined.

Lemma findings_are_long_research_messages_witness :
  String.length short_research <= 50
  /\ findings (_extract_research_results
                [message "research_agent" short_research]) = []
  /\ "https://example.com/b"
     ∈ sources (_extract_research_results
                  [message "research_agent" short_research]).
Proof.
  split; [vm_compute; lia |]. split; [reflexivity |].
  apply (findings_are_long_research_messages
           [message "research_agent" short_research])
    with (m := message "research_agent" short_research).
  - apply list_elem_of_here.
  - reflexivity.
  - vm_compute. apply list_elem_of_here.
Defined.

(** ** The session store and the report renderer *)

Section Store.
Context `{Formatting}.

Lemma getitem_in_range {A : Type} (l : list A) (index : Z) :
  (- Z.of_nat (length l) <= index < Z.of_nat (length l))%Z ->
  exists x, getitem l index = Return x.
Proof.
  intros Hr. unfold getitem.
  set (n := Z.of_nat (length l)) in *.
  set (i := (if (index <? 0)%Z then (index + n)%Z else index)).
  assert (0 <= i < n)%Z as Hi.
  { subst i. destruct (Z.ltb_spec index 0); lia. }
  destruct (Z.ltb_spec i 0); [lia |].
  destruct (Z.leb_spec n i); [lia |]. simpl.
  destruct (l !! Z.to_nat i) as [x|] eqn:Hx; [by exists x |].
  apply lookup_ge_None in Hx. lia.
Qed.

Lemma getitem_at_length {A : Type} (l : list A) :
  getitem l (Z.of_nat (length l)) = Raise IndexError.
Proof.
  unfold getitem.
  destruct (Z.ltb_spec (Z.of_nat (length l)) 0); [lia |].
  destruct (Z.ltb_spec (Z.of_nat (length l)) 0); [lia |].
  destruct (Z.leb_spec (Z.of_nat (length l)) (Z.of_nat (length l)));
    [done | lia].
Qed.

(** Where the guard of [export_research_report] fires, the literal is
    returned. *)
Lemma export_guarded (self : ResearchWorkflow) (index : Z) :
  research_history self = []
  \/ (Z.of_nat (length (research_history self)) < Z.abs index)%Z ->
  export_research_report self index = Return "No research found.".
Proof.
  intros Hg. unfold export_research_report.
  destruct (research_history self) as [|r rs] eqn:Hh; [done |].
  destruct Hg as [Hg|Hg]; [done |].
  apply Z.ltb_lt in Hg. by rewrite Hg.
Qed.

(** For an index within the store, the record it names is rendered. *)
Lemma export_in_range (self : ResearchWorkflow) (index : Z) :
  (- Z.of_nat (length (research_history self)) <= index
   < Z.of_nat (length (research_history self)))%Z ->
  exists research,
    getitem (research_history self) index = Return research
    /\ export_research_report self index = Return (render_report research).
Proof.
  intros Hr. destruct (getitem_in_range _ _ Hr) as [x Hx].
  exists x. split; [done |]. unfold export_research_report.
  destruct (research_history self) as [|r rs] eqn:Hh;
    [simpl in Hr; lia |].
  destruct (Z.ltb_spec (Z.of_nat (length (r :: rs))) (Z.abs index));
    [lia |].
  simpl. simpl in Hx. by rewrite Hx.
Qed.

End Store.

(** C1.  The guard [abs(index) > len(history)] lets the index
    [len(history)] through: for a store that is not empty the lookup
    [history[index]] then raises IndexError, where the claim has the
    literal "No research found." returned for every index out of
    range. *)
Theorem export_raises_at_store_length `{Formatting}
    (self : ResearchWorkflow) :
  research_history self <> [] ->
  export_research_report self
    (Z.of_nat (length (research_history self))) = Raise IndexError.
Proof.
  intros Hne. unfold export_research_report.
  destruct (research_history self) as [|r rs] eqn:Hh; [done |].
  destruct (Z.ltb_spec (Z.of_nat (length (r :: rs)))
              (Z.abs (Z.of_nat (length (r :: rs))))); [lia |].
  cbn [orb bind]. by rewrite getitem_at_length.
Qed.

Lemma export_raises_at_store_length_witness :
  length (research_history after_one_run) = 1
  /\ @export_research_report sample_formatting after_one_run 1
     = Raise IndexError.
Proof.
  split; [reflexivity |].
  apply (@export_raises_at_store_length sample_formatting after_one_run).
  vm_compute. discriminate.
Defined.

(** The renderer on the store of one record: the indices 0 and -1 name
    the record, 2 and -2 are caught by the guard, and so is every index
    on the empty store. *)
Example export_samples :
  @export_research_report sample_formatting after_one_run 0
  = @export_research_report sample_formatting after_one_run (-1)
  /\ (exists report,
        @export_research_report sample_formatting after_one_run (-1)
        = Return report
        /\ report <> "No research found.")
  /\ @export_research_report sample_formatting after_one_run 2
     = Return "No research found."
  /\ @export_research_report sample_formatting after_one_run (-2)
     = Return "No research found."
  /\ @export_research_report sample_formatting fresh_workflow 0
     = Return "No research found.".
Proof.
  split; [reflexivity |]. split; [| repeat split].
  eexists. split; [by vm_compute | discriminate].
Qed.

(** ** The orchestrator *)

Section Orchestrator.
Context `{Formatting}.
Variable driver : Driver.
Variables start_time end_time : Z.
Variable self : ResearchWorkflow.
Variables research_topic instructions : string.

Lemma deref_insert_eq (w : ResearchWorkflow) (h : gmap loc (list Message))
    (l : loc) (ms : list Message) :
  heap w = <[ l := ms ]> h -> deref w l = ms.
Proof. intros Hh. unfold deref. by rewrite Hh, lookup_insert_eq. Qed.

Lemma conduct_research_completed (transcript : list Message) (u : unit) :
  driver (initial_message research_topic instructions)
         (deref self (group_chat_messages self)) = (transcript, Return u) ->
  let record :=
    {| topic := research_topic;
       timestamp := isoformat start_time;
       duration_seconds := (end_time - start_time)%Z;
       messages := group_chat_messages self;
       results := _extract_research_results transcript;
       agent_contributions := _analyze_agent_contributions transcript |} in
  conduct_research driver start_time end_time self research_topic
    instructions =
  ({| heap := <[ group_chat_messages self := transcript ]> (heap self);
      llm_config := llm_config self;
      manager := manager self;
      group_chat_messages := group_chat_messages self;
      research_history := research_history self ++ [record] |},
   Return (Completed record)).
Proof.
  intros Hrun record.
  unfold conduct_research, conduct_research_try. rewrite Hrun.
  unfold deref.
  cbn [heap llm_config manager group_chat_messages research_history].
  rewrite lookup_insert_eq. done.
Qed.

Lemma conduct_research_failed (transcript : list Message) (e : exn) :
  driver (initial_message research_topic instructions)
         (deref self (group_chat_messages self)) = (transcript, Raise e) ->
  conduct_research driver start_time end_time self research_topic
    instructions =
  ({| heap := <[ group_chat_messages self := transcript ]> (heap self);
      llm_config := llm_config self;
      manager := manager self;
      group_chat_messages := group_chat_messages self;
      research_history := research_history self |},
   Return (Degraded (str e) research_topic (isoformat start_time))).
Proof.
  intros Hrun.
  unfold conduct_research, conduct_research_try. by rewrite Hrun.
Qed.

(** Neither outcome moves the transcript list or touches the entries
    of the store. *)
Lemma conduct_research_frame :
  let self' :=
    fst (conduct_research driver start_time end_time self research_topic
           instructions) in
  group_chat_messages self' = group_chat_messages self
  /\ research_history self `prefix_of` research_history self'.
Proof.
  destruct (driver (initial_message research_topic instructions)
              (deref self (group_chat_messages self)))
    as [transcript [e|u]] eqn:Hrun.
  - rewrite (conduct_research_failed _ _ Hrun). simpl. done.
  - rewrite (conduct_research_completed _ _ Hrun). simpl.
    split; [done |]. by apply prefix_app_r.
Qed.

End Orchestrator.



(** C8.  When the driver raises, [conduct_research] does not raise: it
    returns the dict whose keys are exactly error, topic and timestamp,
    with the text of the exception, the topic and the start time; the
    store is as it was.  This holds whatever the driver would do if it
    were called again. *)
Theorem conduct_research_degrades_on_failure `{Formatting}
    (driver : Driver) (start_time end_time : Z) (self : ResearchWorkflow)
    (research_topic instructions : string)
    (transcript : list Message) (e : exn) :
  driver (initial_message research_topic instructions)
         (deref self (group_chat_messages self)) = (transcript, Raise e) ->
  exists self' result,
    conduct_research driver start_time end_time self research_topic
      instructions = (self', Return result)
    /\ result = Degraded (str e) research_topic (isoformat start_time)
    /\ keys result = ["error"; "topic"; "timestamp"]
    /\ research_history self' = research_history self.
Proof.
  intros Hrun.
  rewrite (conduct_research_failed _ _ _ _ _ _ _ _ Hrun).
  eexists _, _. split; [reflexivity |]. done.
Qed.

Lemma conduct_research_degrades_on_failure_witness :
  exists self' result,
    @conduct_research sample_formatting
      (failing_driver [] (Exception "rate limit reached"))
      0 5000000 fresh_workflow "wind power" "" = (self', Return result)
    /\ result = Degraded "rate limit reached" "wind power" "0"
    /\ keys result = ["error"; "topic"; "timestamp"]
    /\ research_history self' = research_history fresh_workflow.
Proof.
  apply (@conduct_research_degrades_on_failure sample_formatting
           (failing_driver [] (Exception "rate limit reached"))
           0 5000000 fresh_workflow "wind power" "" []
           (Exception "rate limit reached")).
  reflexivity.
Defined.

(** ** What [reset] does to the stored records *)

Section Reset.
Context `{Formatting}.

(** The list of records itself is left alone by [reset]. *)
Lemma reset_history (self : ResearchWorkflow) :
  research_history (reset self) = research_history self.
Proof. done. Qed.

(** Every record of a reachable state holds the transcript list of the
    group chat as its messages. *)
Lemma reachable_records_alias (self : ResearchWorkflow) :
  reachable self ->
  Forall (fun record => messages record = group_chat_messages self)
         (research_history self).
Proof.
  induction 1 as [h cfg | self Hreach IH
                 | self driver t0 t1 research_topic instructions Hreach IH].
  - constructor.
  - done.
  - destruct (driver (initial_message research_topic instructions)
                (deref self (group_chat_messages self)))
      as [transcript [e|u]] eqn:Hrun.
    + by rewrite (conduct_research_failed _ _ _ _ _ _ _ _ Hrun).
    + rewrite (conduct_research_completed _ _ _ _ _ _ _ _ Hrun).
      cbn [fst research_history group_chat_messages].
      apply Forall_app. split; [done |]. by repeat constructor.
Qed.

(** So, after [reset], every stored record reads an empty list of
    messages. *)
Lemma reset_empties_every_record (self : ResearchWorkflow)
    (record : ResearchRecord) :
  reachable self -> record ∈ research_history self ->
  record_messages (reset self) record = [].
Proof.
  intros Hreach Hin.
  pose proof (reachable_records_alias self Hreach) as Hall.
  rewrite Forall_forall in Hall. specialize (Hall record Hin).
  unfold record_messages, deref, reset. cbn [heap].
  by rewrite Hall, lookup_insert_eq.
Qed.

End Reset.

(** C10.  The claim fails on the code.  After one completed run the
    stored record reads the transcript of the run as its messages;
    [reset] leaves the store with the same record, but the record now
    reads an empty list of messages, because its messages entry is the
    list object that [reset] clears. *)
Theorem reset_empties_stored_transcript :
  exists record,
    research_history after_one_run = [record]
    /\ record_messages after_one_run record
       = example_transcript synthesis_120
    /\ research_history (reset after_one_run) = [record]
    /\ record_messages (reset after_one_run) record = [].
Proof.
  assert (talking_driver (example_transcript synthesis_120)
            (initial_message "solar power" "")
            (deref fresh_workflow (group_chat_messages fresh_workflow))
          = (example_transcript synthesis_120, Return ())) as Hrun
    by reflexivity.
  unfold after_one_run.
  rewrite (@conduct_research_completed sample_formatting _ 0 5000000 _ _ _
             _ _ Hrun).
  cbn [fst]. eexists. split; [reflexivity |].
  unfold record_messages, deref, reset.
  cbn [heap messages group_chat_messages research_history].
  rewrite !lookup_insert_eq. done.
Qed.

(** ** The search provider *)

Section Provider.
Import WebSearch.
Context `{Web}.
Variable max_results : nat.

Lemma search_returns (query : string) :
  exists hits, search max_results query = Return hits.
Proof.
  unfold search. destruct (ddgs_text query max_results) as [e|rs]; simpl;
    eauto.
Qed.

Lemma fallback_returns (url : string) :
  exists c, _fallback_extract url = Return c.
Proof.
  unfold _fallback_extract. destruct (soup url) as [e|page]; simpl; eauto.
Qed.

Lemma extract_returns (url : string) :
  exists c, extract_article_content url = Return c.
Proof.
  unfold extract_article_content.
  destruct NEWSPAPER_AVAILABLE; [| apply fallback_returns].
  destruct (article url) as [e|a]; simpl; [apply fallback_returns | eauto].
Qed.

End Provider.

(** C9.  No operation of the search provider raises.  [search] returns
    the empty list when the search call raises.  The extraction uses the
    fallback when newspaper is not available or raises; the fallback
    returns the cleaned page text cut to its first 5000 characters as
    text and to its first 500 characters as summary, and the dict with
    three empty strings when fetching or parsing the page raises. *)
Theorem provider_fails_soft `{WebSearch.Web} (max_results : nat)
    (query url : string) :
  (exists hits, WebSearch.search max_results query = Return hits)
  /\ (forall e, WebSearch.ddgs_text query max_results = Raise e ->
        WebSearch.search max_results query = Return [])
  /\ (exists c, WebSearch.extract_article_content url = Return c)
  /\ (WebSearch.NEWSPAPER_AVAILABLE = false
      \/ (exists e, WebSearch.article url = Raise e) ->
      WebSearch.extract_article_content url
      = WebSearch._fallback_extract url)
  /\ (forall page, WebSearch.soup url = Return page ->
        let text := WebSearch.clean_text (WebSearch.get_text page) in
        let title :=
          match WebSearch.soup_title page with
          | Some t => t
          | None => Some ""
          end in
        WebSearch._fallback_extract url
        = Return (WebSearch.Basic title (PyStr.str_take 5000 text)
                    (PyStr.str_take 500 text))
        /\ String.length (PyStr.str_take 5000 text) <= 5000
        /\ String.length (PyStr.str_take 500 text) <= 500
        /\ (String.length text <= 5000 -> PyStr.str_take 5000 text = text))
  /\ (forall e, WebSearch.soup url = Raise e ->
        WebSearch._fallback_extract url
        = Return (WebSearch.Basic (Some "") "" "")).
Proof.
  split; [apply search_returns |].
  split.
  { intros e He. unfold WebSearch.search. by rewrite He. }
  split; [apply extract_returns |].
  split.
  { intros [Hn | [e He]]; unfold WebSearch.extract_article_content.
    - by rewrite Hn.
    - rewrite He. by destruct WebSearch.NEWSPAPER_AVAILABLE. }
  split.
  { intros page Hp text title. unfold WebSearch._fallback_extract.
    rewrite Hp. cbn [bind try_except]. split; [reflexivity |].
    rewrite !length_str_take. split; [lia |]. split; [lia |].
    intros Hlen. clearbody text. clear Hp.
    revert Hlen. generalize 5000. intros n; revert text.
    induction n as [|n IH]; intros [|c s] Hlen; simpl in *; try done;
      [lia |].
    f_equal. apply IH. lia. }
  intros e He. unfold WebSearch._fallback_extract. by rewrite He.
Qed.

Lemma provider_fails_soft_witness :
  @WebSearch.search sample_web 5 "solar power" = Return []
  /\ @WebSearch.extract_article_content sample_web "https://example.com/b"
     = Return (WebSearch.Basic (Some "") "" "")
  /\ @WebSearch.extract_article_content sample_web "https://example.com/a"
     = Return (WebSearch.Basic (Some "Solar power")
                 "Solar power Costs fell again" "Solar power Costs fell again").
Proof.
  split; [| split].
  - apply (proj1 (proj2 (@provider_fails_soft sample_web 5 "solar power" ""))
             (Exception "timed out")).
    reflexivity.
  - destruct (@provider_fails_soft sample_web 5 "" "https://example.com/b")
      as (_ & _ & _ & Hfb & _ & Herr).
    rewrite Hfb by (right; eexists; reflexivity).
    apply (Herr (Exception "connection refused")). reflexivity.
  - destruct (@provider_fails_soft sample_web 5 "" "https://example.com/a")
      as (_ & _ & _ & Hfb & Hpage & _).
    rewrite Hfb by (right; eexists; reflexivity).
    destruct (Hpage sample_page eq_refl) as (-> & _).
    reflexivity.
Defined.

(** ** Further properties of the result extractor *)

Section ExtractorMore.
Import PyStr.

Lemma step_skip (r : Results) (m : Message) :
  inspected m = false -> extract_step r m = r.
Proof.
  unfold inspected, is_research, long_from, msg_name, msg_content,
    extract_step.
  intros Hi. apply orb_false_iff in Hi as [Hi Hc].
  apply orb_false_iff in Hi as [Hr Hs].
  by rewrite Hr, Hs, Hc.
Qed.

Lemma loop_filter (p : Message -> bool) (ms : list Message) (r : Results) :
  (forall m, p m = false -> inspected m = false) ->
  fold_left extract_step (List.filter p ms) r = fold_left extract_step ms r.
Proof.
  intros Hp. revert r; induction ms as [|m ms IH]; intros r; [done |].
  simpl. destruct (p m) eqn:Hm; simpl; [apply IH |].
  rewrite (step_skip r m (Hp m Hm)). apply IH.
Qed.

Lemma user_proxy_not_inspected (m : Message) :
  negb (from_user_proxy m) = false -> inspected m = false.
Proof.
  unfold from_user_proxy, inspected, is_research, long_from.
  intros Hu. apply negb_false_iff, String.eqb_eq in Hu. by rewrite Hu.
Qed.

Lemma recommendations_step (r : Results) (m : Message) :
  recommendations (extract_step r m) = recommendations r.
Proof. unfold extract_step. by repeat case_match. Qed.

Lemma recommendations_loop (ms : list Message) (r : Results) :
  recommendations (fold_left extract_step ms r) = recommendations r.
Proof.
  revert r; induction ms as [|m ms IH]; intros r; [done |].
  simpl. by rewrite IH, recommendations_step.
Qed.

Lemma last_bfilter_Some (p : Message -> bool) (ms : list Message)
    (m : Message) :
  last (List.filter p ms) = Some m -> m ∈ ms /\ p m = true.
Proof.
  intros Hl. apply last_Some_elem_of, list_elem_of_In, filter_In in Hl.
  by rewrite list_elem_of_In.
Qed.

Lemma last_bfilter_None (p : Message -> bool) (ms : list Message) :
  last (List.filter p ms) = None -> forall m, m ∈ ms -> p m = false.
Proof.
  intros Hl m Hm. apply last_None in Hl.
  destruct (p m) eqn:Hp; [| done].
  assert (In m (List.filter p ms)) as Hin
    by (apply filter_In; by rewrite <- list_elem_of_In).
  rewrite Hl in Hin. destruct Hin.
Qed.

Lemma long_content_truthy (role : string) (m : Message) :
  long_from role m = true ->
  truthy (msg_content m) = true /\ 100 < String.length (msg_content m).
Proof.
  unfold long_from. intros Hl. apply andb_true_iff in Hl as [_ Hl].
  apply Nat.ltb_lt in Hl. split; [| done].
  destruct (msg_content m); [simpl in Hl; lia | done].
Qed.

(** The winner of a role over a whole transcript, as a function of the
    last long message of the role. *)
Lemma winner_truthy (role : string) (ms : list Message) :
  truthy (match last (List.filter (long_from role) ms) with
          | Some m => msg_content m
          | None => ""
          end) = true
  <-> exists m, m ∈ ms /\ long_from role m = true.
Proof.
  destruct (last (List.filter (long_from role) ms)) as [m|] eqn:Hl.
  - apply last_bfilter_Some in Hl as [Hm Hlong]. split; [eauto |].
    intros _. by apply long_content_truthy in Hlong as [? _].
  - split; [done |]. intros (m & Hm & Hlong).
    by rewrite (last_bfilter_None _ _ Hl m Hm) in Hlong.
Qed.

Lemma winner_app (role : string) (ms1 ms2 : list Message) :
  let w ms := match last (List.filter (long_from role) ms) with
              | Some m => msg_content m
              | None => ""
              end in
  w (ms1 ++ ms2) = if truthy (w ms2) then w ms2 else w ms1.
Proof.
  intros w. subst w. cbv beta. rewrite List.filter_app, last_app.
  destruct (last (List.filter (long_from role) ms2)) as [m|] eqn:Hl;
    [| done].
  apply last_bfilter_Some in Hl as [_ Hlong].
  apply long_content_truthy in Hlong as [-> _]. done.
Qed.

End ExtractorMore.

(** X1.  The extractor looks only at the messages of the research agent
    and at the long messages of the synthesis and critique agents:
    leaving out every other message, or just the messages of the user
    proxy, gives the same results. *)
Theorem extractor_ignores_other_messages (ms : list Message) :
  _extract_research_results (List.filter inspected ms)
  = _extract_research_results ms
  /\ _extract_research_results
       (List.filter (fun m => negb (from_user_proxy m)) ms)
     = _extract_research_results ms.
Proof.
  unfold _extract_research_results. split.
  - by rewrite loop_filter.
  - by rewrite (loop_filter _ ms _ user_proxy_not_inspected).
Qed.

(** X2.  Extraction over two transcripts put one after the other: the
    findings are those of the first followed by those of the second,
    the sources are those of either, and synthesis and critique are
    those of the second transcript when it has one, else those of the
    first. *)
Theorem extractor_on_appended_transcripts (ms1 ms2 : list Message) :
  let r := _extract_research_results (ms1 ++ ms2) in
  let r1 := _extract_research_results ms1 in
  let r2 := _extract_research_results ms2 in
  findings r = findings r1 ++ findings r2
  /\ (forall u, u ∈ sources r <-> u ∈ sources r1 \/ u ∈ sources r2)
  /\ synthesis r = (if truthy (synthesis r2) then synthesis r2
                    else synthesis r1)
  /\ critique r = (if truthy (critique r2) then critique r2
                   else critique r1).
Proof.
  intros r r1 r2. subst r r1 r2. split; [| split; [| split]].
  - by rewrite !extract_findings, List.filter_app, map_app.
  - intros u. rewrite !extract_sources_elem. split.
    + intros (m & Hm & Hr & Hu). apply elem_of_app in Hm as [Hm|Hm];
        [left | right]; eauto.
    + intros [(m & Hm & Hr & Hu) | (m & Hm & Hr & Hu)]; exists m;
        (split; [apply elem_of_app; eauto | done]).
  - rewrite !extract_synthesis. apply winner_app.
  - rewrite !extract_critique. apply winner_app.
Qed.

(** X4.  The extracted synthesis is not empty exactly when some message
    of the synthesis agent is longer than 100 characters, and then it is
    itself longer than 100 characters; likewise for the critique. *)
Theorem synthesis_present_iff_long_message (ms : list Message) :
  let r := _extract_research_results ms in
  (truthy (synthesis r) = true
   <-> exists m, m ∈ ms /\ long_from "synthesis_agent" m = true)
  /\ (truthy (critique r) = true
      <-> exists m, m ∈ ms /\ long_from "critique_agent" m = true)
  /\ (truthy (synthesis r) = true -> 100 < String.length (synthesis r))
  /\ (truthy (critique r) = true -> 100 < String.length (critique r)).
Proof.
  intros r. subst r. rewrite extract_synthesis, extract_critique.
  split; [apply winner_truthy |]. split; [apply winner_truthy |].
  split.
  - destruct (last (List.filter (long_from "synthesis_agent") ms))
      as [m|] eqn:Hl; [| done].
    intros _. apply last_bfilter_Some in Hl as [_ Hl].
    by apply long_content_truthy in Hl as [_ ?].
  - destruct (last (List.filter (long_from "critique_agent") ms))
      as [m|] eqn:Hl; [| done].
    intros _. apply last_bfilter_Some in Hl as [_ Hl].
    by apply long_content_truthy in Hl as [_ ?].
Qed.

(** X5.  The extractor never fills in recommendations, and every
    finding names the research agent as its agent. *)
Theorem recommendations_stay_empty (ms : list Message) :
  recommendations (_extract_research_results ms) = []
  /\ Forall (fun f => agent f = "research_agent")
            (findings (_extract_research_results ms)).
Proof.
  split.
  - unfold _extract_research_results. simpl. by rewrite recommendations_loop.
  - rewrite extract_findings. apply List.Forall_map, List.Forall_forall.
    done.
Qed.

(** ** What a match of the URL pattern looks like *)

Section Matches.
Import PyStr.

Lemma strip_prefix_Some (p s r : string) :
  strip_prefix p s = Some r -> s = p +:+ r.
Proof.
  revert s; induction p as [|a p IH]; intros s Hs; simpl in Hs.
  - by injection Hs as ->.
  - destruct s as [|b s]; [done |].
    destruct (Ascii.eqb_spec a b) as [->|]; [| done].
    by rewrite (IH s Hs).
Qed.

Lemma strip_prefix_app (p r : string) : strip_prefix p (p +:+ r) = Some r.
Proof.
  induction p as [|a p IH]; [done |].
  change (String a p +:+ r) with (String a (p +:+ r)).
  simpl. by rewrite Ascii.eqb_refl.
Qed.

Lemma str_take_app_length (a b : string) (k : nat) :
  str_take (String.length a + k) (a +:+ b) = a +:+ str_take k b.
Proof.
  induction a as [|c a IH]; [done |].
  change (String c a +:+ b) with (String c (a +:+ b)).
  simpl. by rewrite IH.
Qed.

Lemma str_take_all (s : string) : str_take (String.length s) s = s.
Proof. induction s as [|c s IH]; [done |]. simpl. by rewrite IH. Qed.

Lemma str_take_drop (n : nat) (s : string) :
  str_take n s +:+ PyText.str_drop n s = s.
Proof.
  revert s; induction n as [|n IH]; intros [|c s]; try done.
  change (str_take (S n) (String c s) +:+ PyText.str_drop (S n) (String c s))
    with (String c (str_take n s +:+ PyText.str_drop n s)).
  by rewrite IH.
Qed.

Lemma chars_app (a b : string) :
  PyText.chars (a +:+ b) = PyText.chars a ++ PyText.chars b.
Proof.
  unfold PyText.chars. induction a as [|c a IH]; [done |].
  change (String c a +:+ b) with (String c (a +:+ b)).
  simpl. by rewrite IH.
Qed.

(** What the repetition consumed is made of URL characters. *)
Lemma group_star_consumed (f : nat) (s : string) :
  exists p,
    s = p +:+ Re.group_star f s
    /\ Forall (fun c => Re.url_char c = true) (PyText.chars p).
Proof.
  revert s; induction f as [|f IH]; intros s.
  - exists "". split; [done | constructor].
  - simpl. destruct s as [|c s].
    + exists "". split; [done | constructor].
    + rewrite group_iter_char. destruct (Re.url_char c) eqn:Hc.
      * destruct (IH s) as (p & Hp & Hall).
        exists (String c p). split.
        -- change (String c p +:+ Re.group_star f s)
             with (String c (p +:+ Re.group_star f s)).
           by rewrite <- Hp.
        -- by constructor.
      * exists "". split; [done | constructor].
Qed.

Lemma str_app_empty (s : string) : s +:+ "" = s.
Proof.
  induction s as [|c s IH]; [done |].
  change (String c s +:+ "") with (String c (s +:+ "")). by rewrite IH.
Qed.

Lemma tail_match_spec (r : string) (n : nat) :
  Re.tail_match r = Some n ->
  exists p,
    0 < String.length p
    /\ Forall (fun c => Re.url_char c = true) (PyText.chars p)
    /\ str_take n r = "://" +:+ p.
Proof.
  unfold Re.tail_match.
  destruct (strip_prefix "://" r) as [body|] eqn:Hb; [| done].
  apply strip_prefix_Some in Hb. subst r.
  destruct (group_star_consumed (String.length body) body)
    as (p & Hp & Hall).
  set (rest := Re.group_star (String.length body) body) in *.
  clearbody rest. subst body. rewrite length_app.
  destruct (Nat.ltb_spec (String.length rest)
              (String.length p + String.length rest)) as [Hlt|]; [| done].
  intros [= <-]. exists p. split; [lia |]. split; [done |].
  match goal with
  | |- str_take ?k _ = _ =>
      replace k with (String.length "://" + (String.length p + 0))
        by (simpl; lia)
  end.
  rewrite (str_take_app_length "://" (p +:+ rest) (String.length p + 0)).
  rewrite str_take_app_length. f_equal.
  replace (str_take 0 rest) with "" by (by destruct rest).
  apply str_app_empty.
Qed.

(** A match starts with the scheme and goes on with at least one URL
    character. *)
Lemma match_here_spec (s : string) (n : nat) :
  Re.match_here s = Some n ->
  exists p,
    0 < String.length p
    /\ Forall (fun c => Re.url_char c = true) (PyText.chars p)
    /\ (str_take n s = "http://" +:+ p \/ str_take n s = "https://" +:+ p).
Proof.
  unfold Re.match_here.
  destruct (strip_prefix "http" s) as [r|] eqn:Hr; [| done].
  apply strip_prefix_Some in Hr. subst s.
  assert (forall k, str_take (4 + k) ("http" +:+ r)
                    = "http" +:+ str_take k r) as Htake
    by (intros k; apply (str_take_app_length "http" r k)).
  destruct (match r with
            | String "s"%char r1 => Re.tail_match r1
            | _ => None
            end) as [n1|] eqn:Hs.
  - intros [= <-]. destruct r as [|c r1]; [done |].
    destruct (Ascii.eqb_spec c "s"%char) as [->|Hne].
    + apply tail_match_spec in Hs as (p & Hp & Hall & Ht).
      exists p. split; [done |]. split; [done |]. right.
      transitivity ("http" +:+ str_take (S n1) (String "s" r1));
        [apply (Htake (S n1)) |].
      cbn [str_take]. by rewrite Ht.
    + exfalso. revert Hs Hne.
      destruct c as [[] [] [] [] [] [] [] []]; done.
  - destruct (Re.tail_match r) as [n0|] eqn:Ht; [| done].
    intros [= <-]. apply tail_match_spec in Ht as (p & Hp & Hall & Ht).
    exists p. split; [done |]. split; [done |]. left.
    transitivity ("http" +:+ str_take n0 r); [apply (Htake n0) |].
    by rewrite Ht.
Qed.

(** Every match reported by [findall] is a match of the pattern at some
    place of the text. *)
Lemma findall_from_spec (k : nat) (s u : string) :
  u ∈ Re.findall_from k s ->
  exists before rest n,
    s = before +:+ rest
    /\ Re.match_here rest = Some n
    /\ u = str_take n rest.
Proof.
  revert k; induction s as [|c s IH]; intros k Hu; [by inversion Hu |].
  cbn [Re.findall_from] in Hu.
  assert (forall k', u ∈ Re.findall_from k' s ->
            exists before rest n,
              String c s = before +:+ rest
              /\ Re.match_here rest = Some n /\ u = str_take n rest) as Hrest.
  { intros k' Hk'. destruct (IH k' Hk') as (before & rest & n & -> & Hm & ->).
    exists (String c before), rest, n. done. }
  destruct k as [|k]; [| by eapply Hrest].
  destruct (Re.match_here (String c s)) as [n|] eqn:Hm; [| by eapply Hrest].
  apply elem_of_cons in Hu as [->|Hu]; [| by eapply Hrest].
  exists "", (String c s), n. done.
Qed.

Lemma url_chars_of_scheme :
  Forall (fun c => Re.url_char c = true) (PyText.chars "http://")
  /\ Forall (fun c => Re.url_char c = true) (PyText.chars "https://").
Proof. split; repeat constructor. Qed.

End Matches.

(** X3.  Every source the extractor returns starts with http:// or
    https://, goes on with at least one more character, is made of the
    characters the pattern admits (so it holds no blank), and occurs in
    the content of a message of the research agent. *)
Theorem sources_are_urls_of_research_messages (ms : list Message)
    (u : string) :
  u ∈ sources (_extract_research_results ms) ->
  (exists p, 0 < String.length p
             /\ (u = "http://" +:+ p \/ u = "https://" +:+ p))
  /\ Forall (fun c => Re.url_char c = true) (PyText.chars u)
  /\ (" "%char ∉ PyText.chars u)
  /\ exists m, m ∈ ms /\ is_research m = true
               /\ occurs_in u (msg_content m).
Proof.
  intros Hu. apply extract_sources_elem in Hu as (m & Hm & Hr & Hu).
  apply findall_from_spec in Hu as (before & rest & n & Hc & Hmatch & ->).
  destruct (match_here_spec _ _ Hmatch) as (p & Hp & Hall & Hshape).
  assert (Forall (fun c => Re.url_char c = true)
            (PyText.chars (PyStr.str_take n rest))) as Hchars.
  { destruct url_chars_of_scheme as [H1 H2].
    destruct Hshape as [-> | ->]; rewrite chars_app; by apply Forall_app. }
  split; [eauto |]. split; [done |]. split.
  - intros Hin. rewrite Forall_forall in Hchars.
    by specialize (Hchars _ Hin).
  - exists m. split; [done |]. split; [done |].
    exists before, (PyText.str_drop n rest).
    by rewrite Hc, str_take_drop.
Qed.

Lemma sources_are_urls_of_research_messages_witness :
  (exists p, 0 < String.length p
             /\ ("https://example.com/a" = "http://" +:+ p
                 \/ "https://example.com/a" = "https://" +:+ p))
  /\ Forall (fun c => Re.url_char c = true)
            (PyText.chars "https://example.com/a")
  /\ (" "%char ∉ PyText.chars "https://example.com/a")
  /\ exists m, m ∈ example_transcript synthesis_120
               /\ is_research m = true
               /\ occurs_in "https://example.com/a" (msg_content m).
Proof.
  apply (sources_are_urls_of_research_messages
           (example_transcript synthesis_120) "https://example.com/a").
  vm_compute. apply list_elem_of_here.
Defined.

(** ** Further properties of the contribution analyzer *)

Section AnalyzerMore.

Lemma analyze_lookup (ms : list Message) (name : string) :
  default 0 (_analyze_agent_contributions ms !! name) = count_speaker name ms.
Proof.
  unfold _analyze_agent_contributions.
  by rewrite count_loop_lookup, lookup_empty.
Qed.

Lemma analyze_positive (ms : list Message) :
  map_Forall (fun _ v => 0 < v) (_analyze_agent_contributions ms).
Proof. apply count_loop_positive, map_Forall_empty. Qed.

Lemma count_speaker_perm (name : string) (ms ms' : list Message) :
  Permutation ms ms' -> count_speaker name ms = count_speaker name ms'.
Proof.
  unfold count_speaker.
  induction 1 as [| m l l' Hp IH | a b l | l1 l2 l3 H1 IH1 H2 IH2];
    simpl; [done | | | congruence].
  - destruct (String.eqb _ _); simpl; lia.
  - by destruct (String.eqb (speaker a) name),
         (String.eqb (speaker b) name).
Qed.

Lemma count_loop_dom (ms : list Message) (c : gmap string nat) :
  dom (fold_left count_step ms c)
  = dom c ∪ list_to_set (map speaker ms).
Proof.
  revert c; induction ms as [|m ms IH]; intros c; simpl.
  - by rewrite (right_id_L ∅ (∪)).
  - rewrite IH. unfold count_step at 1. rewrite dom_insert_L.
    unfold speaker.
    by rewrite (comm_L (∪) {[_]} (dom c)), <- (assoc_L (∪)).
Qed.

Lemma count_loop_size (ms : list Message) (c : gmap string nat) :
  size (fold_left count_step ms c) <= size c + length ms.
Proof.
  revert c; induction ms as [|m ms IH]; intros c; simpl; [lia |].
  etrans; [apply IH |]. unfold count_step.
  destruct (c !! dict_get m "name" "unknown") as [v|] eqn:Hv.
  - rewrite map_size_insert_Some by eauto. lia.
  - rewrite map_size_insert_None by done. lia.
Qed.

End AnalyzerMore.

(** X6.  The counts do not depend on the order of the transcript: two
    transcripts with the same messages in a different order give the
    same mapping. *)
Theorem analyzer_ignores_order (ms ms' : list Message) :
  Permutation ms ms' ->
  _analyze_agent_contributions ms = _analyze_agent_contributions ms'.
Proof.
  intros Hp. apply map_eq. intros name.
  pose proof (analyze_lookup ms name) as H1.
  pose proof (analyze_lookup ms' name) as H2.
  rewrite (count_speaker_perm name ms ms' Hp) in H1.
  pose proof (analyze_positive ms) as P1.
  pose proof (analyze_positive ms') as P2.
  destruct (_analyze_agent_contributions ms !! name) as [v|] eqn:Hv,
           (_analyze_agent_contributions ms' !! name) as [w|] eqn:Hw;
    simpl in *.
  - congruence.
  - apply P1 in Hv. lia.
  - apply P2 in Hw. lia.
  - done.
Qed.

Lemma analyzer_ignores_order_witness :
  _analyze_agent_contributions
    [message "research_agent" short_research;
     message "synthesis_agent" synthesis_120]
  = _analyze_agent_contributions
      [message "synthesis_agent" synthesis_120;
       message "research_agent" short_research].
Proof.
  apply analyzer_ignores_order. apply perm_swap.
Defined.

(** X7.  The names with an entry are exactly the speakers of the
    transcript, so there are at most as many entries as messages: the
    number of participating agents the report gives is the number of
    distinct speakers. *)
Theorem analyzer_entries_are_the_speakers (ms : list Message) :
  dom (_analyze_agent_contributions ms) = list_to_set (map speaker ms)
  /\ size (_analyze_agent_contributions ms) <= length ms
  /\ (forall name, name ∈ map speaker ms ->
        exists n, _analyze_agent_contributions ms !! name = Some n
                  /\ 0 < n).
Proof.
  unfold _analyze_agent_contributions. split; [| split].
  - by rewrite count_loop_dom, dom_empty_L, (left_id_L ∅ (∪)).
  - pose proof (count_loop_size ms ∅) as Hs.
    rewrite map_size_empty in Hs. lia.
  - intros name Hin.
    assert (name ∈ dom (fold_left count_step ms ∅)) as Hd.
    { rewrite count_loop_dom, dom_empty_L, (left_id_L ∅ (∪)).
      by apply elem_of_list_to_set. }
    apply elem_of_dom in Hd as [n Hn]. exists n. split; [done |].
    by apply (count_loop_positive ms ∅ (map_Forall_empty _)) in Hn.
Qed.

(** ** The summary, the report and the indices of the store *)

Section Indices.

(** The general shape of [getitem]: the index [i] or [i + len(l)]. *)
Lemma getitem_Return {A : Type} (l : list A) (index : Z) (x : A) :
  getitem l index = Return x <->
  exists i : nat,
    l !! i = Some x
    /\ (index = Z.of_nat i
        \/ index = (Z.of_nat i - Z.of_nat (length l))%Z).
Proof.
  unfold getitem.
  set (n := Z.of_nat (length l)).
  set (j := (if (index <? 0)%Z then (index + n)%Z else index)).
  split.
  - destruct ((j <? 0)%Z || (n <=? j)%Z) eqn:Hg; [done |].
    apply orb_false_iff in Hg as [Hg1 Hg2].
    apply Z.ltb_ge in Hg1. apply Z.leb_gt in Hg2.
    destruct (l !! Z.to_nat j) as [y|] eqn:Hy; [| done].
    intros [= ->]. exists (Z.to_nat j). split; [done |].
    subst j. destruct (Z.ltb_spec index 0); lia.
  - intros (i & Hi & Hindex).
    pose proof (lookup_lt_Some _ _ _ Hi) as Hlt.
    assert (j = Z.of_nat i) as Hj.
    { subst j. destruct (Z.ltb_spec index 0); destruct Hindex; subst n; lia. }
    rewrite Hj.
    destruct (Z.ltb_spec (Z.of_nat i) 0); [lia |].
    destruct (Z.leb_spec n (Z.of_nat i)); [subst n; lia |].
    simpl. by rewrite Nat2Z.id, Hi.
Qed.

Lemma getitem_elem {A : Type} (l : list A) (index : Z) (x : A) :
  getitem l index = Return x -> x ∈ l.
Proof.
  intros Hg. apply getitem_Return in Hg as (i & Hi & _).
  by eapply list_elem_of_lookup_2.
Qed.

Lemma getitem_raises {A : Type} (l : list A) (index : Z) (e : exn) :
  getitem l index = Raise e -> e = IndexError.
Proof.
  unfold getitem. destruct (_ || _); [by intros [= <-] |].
  destruct (l !! _); [done | by intros [= <-]].
Qed.



Lemma export_unfold `{Formatting} (self : ResearchWorkflow) (index : Z) :
  export_research_report self index =
  if guarded self index then Return "No research found."
  else research <- getitem (research_history self) index ;;
       Return (render_report research).
Proof. done. Qed.

Lemma summary_unfold (self : ResearchWorkflow) (index : Z) :
  get_research_summary self index =
  if guarded self index then Return None
  else research <- getitem (research_history self) index ;;
       Return (Some (summary_of self research)).
Proof. done. Qed.

Lemma guarded_false_of_item (self : ResearchWorkflow) (index : Z)
    (research : ResearchRecord) :
  getitem (research_history self) index = Return research ->
  guarded self index = false.
Proof.
  intros Hg. apply getitem_Return in Hg as (i & Hi & Hindex).
  pose proof (lookup_lt_Some _ _ _ Hi) as Hlt. unfold guarded.
  destruct (research_history self) as [|r rs] eqn:Hh; [done |].
  simpl. apply Z.ltb_ge. simpl in Hlt. destruct Hindex as [-> | ->];
    rewrite ?length_cons; lia.
Qed.

End Indices.

Section Rendering.
Context `{Formatting}.

Lemma first_app (a b : string) (c : ascii) :
  first a = Some c -> first (a +:+ b) = Some c.
Proof. by destruct a. Qed.

Lemma first_render_findings (i : nat) (fs : list Finding) (report : string)
    (c : ascii) :
  first report = Some c -> first (render_findings i fs report) = Some c.
Proof.
  revert i report; induction fs as [|f fs IH]; intros i report Hc; [done |].
  simpl. apply IH. by apply first_app.
Qed.

Lemma first_render_sources (srcs : list string) (report : string)
    (c : ascii) :
  first report = Some c -> first (render_sources srcs report) = Some c.
Proof.
  revert report; induction srcs as [|s srcs IH]; intros report Hc; [done |].
  simpl. apply IH. by apply first_app.
Qed.

(** A rendered report opens with the number sign of its title, so it is
    never the literal of the guard. *)
Lemma render_report_not_literal (research : ResearchRecord) :
  render_report research <> "No research found.".
Proof.
  assert (first (render_report research) = Some "#"%char) as Hf.
  { unfold render_report. repeat apply first_app.
    destruct (truthy (critique (results research)));
      repeat apply first_app;
      (destruct (sources (results research));
       [| apply first_render_sources; repeat apply first_app]);
      by apply first_render_findings. }
  intros Heq. by rewrite Heq in Hf.
Qed.

End Rendering.

(** X8.  The summary and the report pick their record alike: for every
    store and every index, the summary is [None] exactly when the report
    is the literal "No research found.", either both raise or neither
    does (and then it is IndexError), and a summary that is returned
    is that of the record the report renders. *)
Theorem summary_and_report_agree `{Formatting} (self : ResearchWorkflow)
    (index : Z) :
  (get_research_summary self index = Return None
   <-> export_research_report self index = Return "No research found.")
  /\ (forall e, get_research_summary self index = Raise e
                <-> export_research_report self index = Raise e)
  /\ (forall e, export_research_report self index = Raise e ->
                e = IndexError)
  /\ (forall s, get_research_summary self index = Return (Some s) ->
        exists research,
          research ∈ research_history self
          /\ s = summary_of self research
          /\ export_research_report self index
             = Return (render_report research)).
Proof.
  rewrite export_unfold, summary_unfold.
  destruct (guarded self index).
  { split; [done |]. split; [by intros e; split; intros [=] |].
    split; [by intros e [=] |]. intros s [=]. }
  destruct (getitem (research_history self) index) as [e|research] eqn:Hg;
    cbn [bind].
  - split; [by split; intros [=] |]. split; [by intros e'; split; intros [= <-] |].
    split; [| intros s [=]].
    intros e' [= <-]. by apply getitem_raises in Hg.
  - split.
    { split; intros [= Heq]. by apply render_report_not_literal in Heq. }
    split; [by intros e; split; intros [=] |]. split; [by intros e [=] |].
    intros s [= <-]. exists research. split; [| done].
    by eapply getitem_elem.
Qed.

(** X9.  In every state a workflow can reach, the messages a summary
    counts are those of the present transcript of the group chat,
    whichever stored record the summary is of. *)
Theorem summary_counts_present_transcript `{Formatting}
    (self : ResearchWorkflow) (index : Z) (s : Summary) :
  reachable self ->
  get_research_summary self index = Return (Some s) ->
  total_messages s = length (deref self (group_chat_messages self)).
Proof.
  intros Hreach Hs. rewrite summary_unfold in Hs.
  destruct (guarded self index); [done |].
  destruct (getitem (research_history self) index) as [e|research] eqn:Hg;
    [done |].
  cbn [bind] in Hs. injection Hs as <-.
  apply getitem_elem in Hg.
  pose proof (reachable_records_alias self Hreach) as Hall.
  rewrite Forall_forall in Hall. specialize (Hall research Hg).
  unfold summary_of, record_messages. cbn [total_messages]. by rewrite Hall.
Qed.

Lemma summary_counts_present_transcript_witness :
  exists s,
    @get_research_summary (reset after_one_run) (-1) = Return (Some s)
    /\ total_messages s = 0.
Proof.
  eexists. split; [reflexivity |].
  apply (@summary_counts_present_transcript sample_formatting
           (reset after_one_run) (-1)).
  - apply reach_reset. unfold after_one_run.
    apply reach_conduct. apply reach_init.
  - reflexivity.
Defined.





(** X12.  Indices from the front and from the back: for a position [i]
    within the store, the indices [i] and [i - len] give the same
    report, the report of the record at position [i]. *)
Theorem export_index_from_either_end `{Formatting}
    (self : ResearchWorkflow) (i : nat) (research : ResearchRecord) :
  research_history self !! i = Some research ->
  export_research_report self (Z.of_nat i) = Return (render_report research)
  /\ export_research_report self
       (Z.of_nat i - Z.of_nat (length (research_history self)))
     = Return (render_report research).
Proof.
  intros Hi.
  assert (getitem (research_history self) (Z.of_nat i) = Return research)
    as H1 by (apply getitem_Return; eauto).
  assert (getitem (research_history self)
            (Z.of_nat i - Z.of_nat (length (research_history self)))
          = Return research) as H2 by (apply getitem_Return; eauto).
  rewrite !export_unfold.
  by rewrite (guarded_false_of_item _ _ _ H1), H1,
             (guarded_false_of_item _ _ _ H2), H2.
Qed.

Lemma export_index_from_either_end_witness :
  exists research,
    research_history after_one_run !! 0 = Some research
    /\ @export_research_report sample_formatting after_one_run 0
       = Return (@render_report sample_formatting research)
    /\ @export_research_report sample_formatting after_one_run (-1)
       = Return (@render_report sample_formatting research).
Proof.
  eexists. split; [reflexivity |].
  apply (@export_index_from_either_end sample_formatting after_one_run 0).
  reflexivity.
Defined.

(** ** The workflow over many calls *)

Section Evolution.
Context `{Formatting}.

Lemma conduct_research_keeps_config (driver : Driver) (t0 t1 : Z)
    (s : ResearchWorkflow) (research_topic instructions : string) :
  let s' := fst (conduct_research driver t0 t1 s research_topic
                   instructions) in
  llm_config s' = llm_config s /\ manager s' = manager s.
Proof.
  destruct (driver (initial_message research_topic instructions)
              (deref s (group_chat_messages s)))
    as [transcript [e|u]] eqn:Hrun.
  - by rewrite (conduct_research_failed _ _ _ _ _ _ _ _ Hrun).
  - by rewrite (conduct_research_completed _ _ _ _ _ _ _ _ Hrun).
Qed.

Lemma evolves_keeps_config (self later : ResearchWorkflow) :
  evolves self later -> llm_config later = llm_config self.
Proof.
  induction 1 as [| later Hev IH
                 | later driver t0 t1 research_topic instructions Hev IH].
  - done.
  - done.
  - destruct (conduct_research_keeps_config driver t0 t1 later
                research_topic instructions) as [Hc _].
    cbv zeta in Hc. congruence.
Qed.

End Evolution.

(** X13.  Whatever sequence of [reset] and [conduct_research] is run on
    a workflow, the records it had stay at the front of the store, in
    their order; the configuration and the transcript list of the group
    chat stay the same objects. *)
Theorem store_only_grows `{Formatting} (self later : ResearchWorkflow) :
  evolves self later ->
  research_history self `prefix_of` research_history later
  /\ length (research_history self) <= length (research_history later)
  /\ llm_config later = llm_config self
  /\ group_chat_messages later = group_chat_messages self.
Proof.
  assert (forall s s', research_history s `prefix_of` research_history s'
            -> length (research_history s) <= length (research_history s'))
    as Hlen by (intros s s' Hp; by apply prefix_length).
  induction 1 as [| later Hev IH
                 | later driver t0 t1 research_topic instructions Hev IH].
  - done.
  - destruct IH as (Hp & _ & Hc & Hg). by repeat split; auto.
  - destruct IH as (Hp & _ & Hc & Hg).
    pose proof (conduct_research_frame driver t0 t1 later research_topic
                  instructions) as [Hg' Hp'].
    cbv zeta in Hg', Hp'.
    assert (research_history self `prefix_of`
            research_history
              (fst (conduct_research driver t0 t1 later research_topic
                      instructions))) as Hp''
      by (etrans; eauto).
    split; [done |]. split; [by apply Hlen |]. split; [| congruence].
    destruct (conduct_research_keeps_config driver t0 t1 later
                research_topic instructions) as [Hc' _].
    cbv zeta in Hc'. congruence.
Qed.

Lemma store_only_grows_witness :
  research_history after_one_run
    `prefix_of` research_history
                  (fst (@conduct_research sample_formatting
                          (failing_driver [] (Exception "timed out"))
                          0 1 (reset after_one_run) "wind power" ""))
  /\ length (research_history after_one_run)
     <= length (research_history
                  (fst (@conduct_research sample_formatting
                          (failing_driver [] (Exception "timed out"))
                          0 1 (reset after_one_run) "wind power" "")))
  /\ llm_config
       (fst (@conduct_research sample_formatting
               (failing_driver [] (Exception "timed out"))
               0 1 (reset after_one_run) "wind power" ""))
     = llm_config after_one_run
  /\ group_chat_messages
       (fst (@conduct_research sample_formatting
               (failing_driver [] (Exception "timed out"))
               0 1 (reset after_one_run) "wind power" ""))
     = group_chat_messages after_one_run.
Proof.
  apply (@store_only_grows sample_formatting).
  apply evolves_conduct, evolves_reset, evolves_here.
Defined.



(** X16.  The configuration of the manager: the constructor builds the
    manager without the entry proxies; [conduct_research] keeps the
    manager; [reset] builds it from the whole configuration.  So from
    the first [reset] on, the manager has the entry proxies whenever
    the configuration has it. *)
Theorem manager_configuration `{Formatting}
    (h : gmap loc (list Message)) (cfg : LlmConfig)
    (later : ResearchWorkflow) :
  evolves (__init__ h cfg) later ->
  manager (__init__ h cfg) !! "proxies" = None
  /\ (manager later = delete "proxies" cfg \/ manager later = cfg)
  /\ manager (reset later) = cfg
  /\ forall driver start_time end_time research_topic instructions,
       manager (fst (conduct_research driver start_time end_time later
                       research_topic instructions))
       = manager later.
Proof.
  intros Hev.
  assert (forall s driver t0 t1 research_topic instructions,
            manager (fst (conduct_research driver t0 t1 s research_topic
                            instructions)) = manager s) as Hkeep.
  { intros s driver t0 t1 research_topic instructions.
    by destruct (conduct_research_keeps_config driver t0 t1 s
                   research_topic instructions) as [_ Hm]. }
  split; [apply lookup_delete_eq |].
  pose proof (evolves_keeps_config _ _ Hev) as Hc.
  cbn [__init__ llm_config] in Hc.
  split; [| split; [done | by intros; apply Hkeep]].
  clear Hc.
  induction Hev as [| later Hev IH
                   | later driver t0 t1 research_topic instructions Hev IH].
  - by left.
  - right. apply (evolves_keeps_config _ _ Hev).
  - rewrite Hkeep. apply IH.
Qed.

Lemma manager_configuration_witness :
  manager fresh_workflow !! "proxies" = None
  /\ (manager (reset after_one_run) = delete "proxies" sample_config
      \/ manager (reset after_one_run) = sample_config)
  /\ manager (reset (reset after_one_run)) = sample_config
  /\ forall driver start_time end_time research_topic instructions,
       manager (fst (@conduct_research sample_formatting driver start_time
                       end_time (reset after_one_run) research_topic
                       instructions))
       = manager (reset after_one_run).
Proof.
  apply (@manager_configuration sample_formatting ∅ sample_config
           (reset after_one_run)).
  apply evolves_reset. unfold after_one_run.
  apply evolves_conduct, evolves_here.
Defined.

(** ** Further properties of the search provider *)

(** X17.  Whatever the fallback extraction returns, it is the dict with
    title, text and summary; the summary is the first 500 characters of
    the text it returns, and the text has at most 5000 characters. *)
Theorem fallback_summary_is_prefix_of_text `{WebSearch.Web} (url : string)
    (c : WebSearch.Content) :
  WebSearch._fallback_extract url = Return c ->
  exists title text summary,
    c = WebSearch.Basic title text summary
    /\ summary = PyStr.str_take 500 text
    /\ String.length text <= 5000
    /\ String.length summary <= 500
    /\ String.length summary <= String.length text.
Proof.
  unfold WebSearch._fallback_extract.
  destruct (WebSearch.soup url) as [e|page]; cbn [bind try_except].
  - intros [= <-]. eexists _, _, _. split; [reflexivity |].
    repeat split; simpl; lia.
  - set (cleaned := WebSearch.clean_text (WebSearch.get_text page)).
    pose proof (str_take_take 500 5000 cleaned) as Htake.
    pose proof (length_str_take 5000 cleaned) as H5000.
    pose proof (length_str_take 500 cleaned) as H500.
    set (text := PyStr.str_take 5000 cleaned) in *.
    set (summary := PyStr.str_take 500 cleaned) in *.
    clearbody text summary.
    intros [= <-]. exists (match WebSearch.soup_title page with
                           | Some t => t
                           | None => Some ""
                           end), text, summary.
    split; [done |]. split; [symmetry; apply Htake; lia |].
    repeat split; lia.
Qed.

Lemma fallback_summary_is_prefix_of_text_witness :
  exists title text summary,
    WebSearch.Basic (Some "Solar power") "Solar power Costs fell again"
      "Solar power Costs fell again"
    = WebSearch.Basic title text summary
    /\ summary = PyStr.str_take 500 text
    /\ String.length text <= 5000
    /\ String.length summary <= 500
    /\ String.length summary <= String.length text.
Proof.
  apply (@fallback_summary_is_prefix_of_text sample_web
           "https://example.com/a").
  reflexivity.
Defined.

(** X18.  The extraction returns the six entries of the newspaper path
    exactly when newspaper is available and the article could be
    downloaded, parsed and summarised; in every other case it returns
    what the fallback returns. *)
Theorem rich_content_iff_newspaper_succeeds `{WebSearch.Web} (url : string) :
  (forall a,
      WebSearch.extract_article_content url = Return (WebSearch.Rich a)
      <-> WebSearch.NEWSPAPER_AVAILABLE = true
          /\ WebSearch.article url = Return a)
  /\ ((forall a, WebSearch.extract_article_content url
                 <> Return (WebSearch.Rich a)) ->
      WebSearch.extract_article_content url
      = WebSearch._fallback_extract url).
Proof.
  assert (forall a, WebSearch._fallback_extract url
                    <> Return (WebSearch.Rich a)) as Hfb.
  { intros a. unfold WebSearch._fallback_extract.
    by destruct (WebSearch.soup url). }
  unfold WebSearch.extract_article_content.
  destruct WebSearch.NEWSPAPER_AVAILABLE.
  - destruct (WebSearch.article url) as [e|a0]; cbn [bind try_except].
    + split; [| done]. intros a. split; [| by intros [_ [=]]].
      intros Heq. by apply Hfb in Heq.
    + split.
      * intros a. split; [by intros [= ->] | by intros [_ [= ->]]].
      * intros Hno. by specialize (Hno a0).
  - split; [| done]. intros a. split; [| by intros [[=] _]].
    intros Heq. by apply Hfb in Heq.
Qed.

(** ** Facts about [strip], [rstrip] and [endswith] *)

Section Strip.
Import WebSearch.

Lemma lstrip_first (s : string) (c : ascii) :
  first (lstrip s) = Some c -> is_space c = false.
Proof.
  induction s as [|a s IH]; [done |]. simpl.
  destruct (is_space a) eqn:Ha; [done |]. by intros [= <-].
Qed.

Lemma lstrip_id (s : string) :
  match first s with Some c => is_space c = false | None => True end ->
  lstrip s = s.
Proof. destruct s as [|a s]; [done |]. simpl. by intros ->. Qed.

Lemma rstrip_first (s : string) (c : ascii) :
  first (rstrip s) = Some c -> first s = Some c.
Proof.
  destruct s as [|a s]; [done |]. simpl.
  destruct (rstrip s); [by destruct (is_space a) | done].
Qed.

Lemma rstrip_last (s : string) (c : ascii) :
  last_char (rstrip s) = Some c -> is_space c = false.
Proof.
  induction s as [|a s IH]; [done |]. simpl.
  destruct (rstrip s) as [|d r] eqn:Hr.
  - destruct (is_space a) eqn:Ha; [done |]. by intros [= <-].
  - intros Hl. apply IH. exact Hl.
Qed.

Lemma rstrip_id (s : string) :
  match last_char s with Some c => is_space c = false | None => True end ->
  rstrip s = s.
Proof.
  induction s as [|a s IH]; [done |].
  destruct s as [|b s].
  - simpl. by intros ->.
  - intros Hl. change (last_char (String a (String b s)))
      with (last_char (String b s)) in Hl.
    specialize (IH Hl). cbn [rstrip] in *. by rewrite IH.
Qed.

Lemma rstrip_all_space (ws : string) :
  all_space ws = true -> rstrip ws = "".
Proof.
  unfold all_space. induction ws as [|a ws IH]; [done |].
  cbn [PyText.chars String.list_ascii_of_string forallb].
  intros Hs. apply andb_true_iff in Hs as [Ha Hs].
  cbn [rstrip]. unfold PyText.chars in IH. by rewrite (IH Hs), Ha.
Qed.

(** White space at the end does not change what [rstrip] returns. *)
Lemma rstrip_app_space (s ws : string) :
  all_space ws = true -> rstrip (s +:+ ws) = rstrip s.
Proof.
  intros Hs. induction s as [|a s IH].
  - change ("" +:+ ws) with ws. by rewrite (rstrip_all_space ws Hs).
  - change (String a s +:+ ws) with (String a (s +:+ ws)).
    cbn [rstrip]. by rewrite IH.
Qed.

Lemma strip_trimmed (s : string) : trimmed (strip s) = true.
Proof.
  unfold trimmed, strip. apply andb_true_iff. split.
  - destruct (first (rstrip (lstrip s))) as [c|] eqn:Hc; [| done].
    apply rstrip_first, lstrip_first in Hc. by rewrite Hc.
  - destruct (last_char (rstrip (lstrip s))) as [c|] eqn:Hc; [| done].
    apply rstrip_last in Hc. by rewrite Hc.
Qed.

Lemma strip_id (s : string) : trimmed s = true -> strip s = s.
Proof.
  unfold trimmed, strip. intros Ht. apply andb_true_iff in Ht as [Hf Hl].
  rewrite lstrip_id.
  - apply rstrip_id. destruct (last_char s); [| done].
    by apply negb_true_iff.
  - destruct (first s); [| done]. by apply negb_true_iff.
Qed.

Lemma str_drop_app_length (a b : string) :
  PyText.str_drop (String.length a) (a +:+ b) = b.
Proof. induction a as [|c a IH]; [by destruct b | done]. Qed.

(** [s.endswith(suffix)] holds exactly when [s] is something followed
    by [suffix]. *)
Lemma endswith_spec (suffix s : string) :
  PyText.endswith suffix s = true <-> exists body, s = body +:+ suffix.
Proof.
  unfold PyText.endswith. split.
  - intros He. apply andb_true_iff in He as [Hl He].
    apply String.eqb_eq in He.
    remember (String.length s - String.length suffix) as n eqn:Hn.
    clear Hn Hl. exists (PyStr.str_take n s).
    rewrite <- He. symmetry. apply str_take_drop.
  - intros [body ->]. rewrite length_app. apply andb_true_iff. split.
    + apply Nat.leb_le. lia.
    + replace (String.length body + String.length suffix
               - String.length suffix) with (String.length body) by lia.
      rewrite str_drop_app_length. apply String.eqb_refl.
Qed.

Lemma last_char_app (a b : string) (c : ascii) :
  last_char b = Some c -> last_char (a +:+ b) = Some c.
Proof.
  intros Hb. induction a as [|x a IH]; [done |].
  change (String x a +:+ b) with (String x (a +:+ b)).
  cbn [last_char]. by destruct (a +:+ b).
Qed.

End Strip.

(** ** agents.py, config.py, demo.py and app.py *)

Section Callers.

Lemma str_app_assoc (a b c : string) : (a +:+ b) +:+ c = a +:+ (b +:+ c).
Proof.
  induction a as [|x a IH]; [done |].
  change ((String x a +:+ b) +:+ c) with (String x ((a +:+ b) +:+ c)).
  by rewrite IH.
Qed.

Lemma rstrip_keeps_terminate (body : string) :
  WebSearch.rstrip (body +:+ "TERMINATE") = body +:+ "TERMINATE".
Proof.
  apply rstrip_id.
  by rewrite (last_char_app body "TERMINATE" "E"%char).
Qed.

Lemma chars_replace_char (old new : ascii) (s : string) :
  PyText.chars (PyText.replace_char old new s)
  = map (fun c => if Ascii.eqb c old then new else c) (PyText.chars s).
Proof.
  unfold PyText.chars. induction s as [|c s IH]; [done |].
  simpl. by rewrite IH.
Qed.

Lemma chars_str_take (n : nat) (s : string) :
  PyText.chars (PyStr.str_take n s) = take n (PyText.chars s).
Proof.
  unfold PyText.chars. revert s; induction n as [|n IH]; intros [|c s];
    try done.
  simpl. by rewrite IH.
Qed.

Lemma str_take_short (n : nat) (s : string) :
  String.length s <= n -> PyStr.str_take n s = s.
Proof.
  revert s; induction n as [|n IH]; intros [|c s] Hl; simpl in *;
    try done; [lia |].
  f_equal. apply IH. lia.
Qed.

Lemma replace_char_absent (old new : ascii) (s : string) :
  old ∉ PyText.chars s -> PyText.replace_char old new s = s.
Proof.
  unfold PyText.chars. induction s as [|c s IH]; [done |].
  simpl. intros Hin. apply not_elem_of_cons in Hin as [Hne Hin].
  destruct (Ascii.eqb_spec c old) as [->|]; [done |]. by rewrite IH.
Qed.

(** One pass of the inner loop of the analytics tab. *)
Lemma add_contributions_lookup (stats contributions : gmap string nat)
    (agent : string) :
  default 0 (App.add_contributions stats contributions !! agent)
  = default 0 (stats !! agent) + default 0 (contributions !! agent).
Proof.
  unfold App.add_contributions.
  apply (map_fold_weak_ind
           (fun (r : gmap string nat) (m : gmap string nat) =>
              default 0 (r !! agent)
              = default 0 (stats !! agent) + default 0 (m !! agent))).
  - rewrite lookup_empty. simpl. lia.
  - intros i x m r Hi IH.
    destruct (decide (i = agent)) as [->|Hne].
    + rewrite !lookup_insert_eq. rewrite Hi in IH. simpl in *. lia.
    + by rewrite !lookup_insert_ne.
Qed.

End Callers.

(** X19.  The user proxy takes a message as the end of the conversation
    exactly when its content, with the white space at its end taken
    off, ends with TERMINATE.  A message without content is no end, and
    white space after the content changes nothing. *)
Theorem termination_message (x : Message) :
  (is_termination_msg x = true
   <-> exists body,
         WebSearch.rstrip (dict_get x "content" "") = body +:+ "TERMINATE")
  /\ (x !! "content" = None -> is_termination_msg x = false)
  /\ (forall body ws,
        all_space ws = true ->
        x !! "content" = Some (body +:+ "TERMINATE" +:+ ws) ->
        is_termination_msg x = true)
  /\ (forall ws,
        all_space ws = true ->
        is_termination_msg
          (<[ "content" := dict_get x "content" "" +:+ ws ]> x)
        = is_termination_msg x).
Proof.
  unfold is_termination_msg. split; [apply endswith_spec |].
  split; [| split].
  - intros Hx. unfold dict_get. by rewrite Hx.
  - intros body ws Hws Hx. apply endswith_spec. exists body.
    unfold dict_get. rewrite Hx. simpl.
    rewrite <- str_app_assoc, rstrip_app_space by done.
    apply rstrip_keeps_terminate.
  - intros ws Hws. unfold dict_get at 1. rewrite lookup_insert_eq. simpl.
    by rewrite rstrip_app_space.
Qed.

Lemma termination_message_witness :
  is_termination_msg
    (message "critique_agent"
       ("The report is complete. TERMINATE" +:+ PyStr.nl)) = true
  /\ is_termination_msg (message "critique_agent" "TERMINATE soon") = false
  /\ is_termination_msg {[ "name" := "user_proxy" ]} = false.
Proof.
  split; [| split].
  - apply (proj1 (proj2 (proj2 (termination_message
             (message "critique_agent"
                ("The report is complete. TERMINATE" +:+ PyStr.nl)))))
             "The report is complete. " PyStr.nl); reflexivity.
  - reflexivity.
  - apply (proj1 (proj2 (termination_message {[ "name" := "user_proxy" ]}))).
    reflexivity.
Defined.

(** X20.  [validate_config] says yes exactly when [get_llm_config]
    returns; the configuration returned has one entry in its
    config_list, with the model and the key of the settings; with an
    empty key [get_llm_config] raises. *)
Theorem config_valid_iff_llm_config_returns (cls : Config.Settings) :
  (Config.validate_config cls = true
   <-> exists cfg, Config.get_llm_config cls = Return cfg)
  /\ (forall cfg, Config.get_llm_config cls = Return cfg ->
        exists entry,
          cfg !! "config_list" = Some [entry]
          /\ entry !! "model" = Some (Config.DEFAULT_MODEL cls)
          /\ entry !! "api_key" = Some (Config.OPENAI_API_KEY cls)
          /\ Config.OPENAI_API_KEY cls <> "")
  /\ (Config.OPENAI_API_KEY cls = "" ->
      Config.get_llm_config cls
      = Raise (Exception "OpenAI API key is not set.")).
Proof.
  unfold Config.validate_config, Config.get_llm_config.
  destruct (Config.OPENAI_API_KEY cls) as [|c key] eqn:Hk; simpl.
  - split; [split; [done | by intros [? [=]]] |]. split; [done | done].
  - split; [split; eauto |]. split; [| done].
    intros cfg [= <-]. eexists. split; [apply lookup_singleton_eq |].
    split; [apply lookup_insert_eq |]. split; [| done].
    rewrite lookup_insert_ne by done. apply lookup_singleton_eq.
Qed.

(** X21.  The names of the files the demo writes: the report is named
    research_report_ followed by at most 30 characters of the topic and
    .md, and the name holds no blank; a topic of at most 30 characters
    without blanks appears in the name as it is.  The topic researched
    is never empty: input that is empty or white space gives the default
    topic, any other input is taken without the white space around
    it. *)
Theorem demo_topic_and_file_names (typed research_topic : string) :
  (" "%char ∉ PyText.chars (Demo.report_filename research_topic))
  /\ String.length (Demo.report_filename research_topic) <= 49
  /\ (String.length research_topic <= 30 ->
      (" "%char ∉ PyText.chars research_topic) ->
      Demo.report_filename research_topic
      = "research_report_" +:+ research_topic +:+ ".md")
  /\ truthy (Demo.choose_topic typed) = true
  /\ trimmed (Demo.choose_topic typed) = true
  /\ (all_space typed = true -> Demo.choose_topic typed = Demo.default_topic)
  /\ (trimmed typed = true -> typed <> "" -> Demo.choose_topic typed = typed).
Proof.
  split; [| split; [| split; [| split; [| split; [| split]]]]].
  - unfold Demo.report_filename.
    rewrite !chars_app, chars_str_take, chars_replace_char.
    intros Hin. apply elem_of_app in Hin as [Hin|Hin].
    { by repeat (apply elem_of_cons in Hin as [[=]|Hin]); inversion Hin. }
    apply elem_of_app in Hin as [Hin|Hin].
    + apply elem_of_take in Hin as (i & Hin & _).
      apply list_elem_of_lookup_2, list_elem_of_In, in_map_iff in Hin
        as (c & Heq & _).
      destruct (Ascii.eqb c " "%char) eqn:E; [done |]. by subst c.
    + by repeat (apply elem_of_cons in Hin as [[=]|Hin]); inversion Hin.
  - unfold Demo.report_filename. rewrite !length_app, length_str_take.
    change (String.length "research_report_") with 16.
    change (String.length ".md") with 3. lia.
  - intros Hlen Hno. unfold Demo.report_filename.
    by rewrite replace_char_absent, str_take_short.
  - unfold Demo.choose_topic.
    by destruct (WebSearch.strip typed).
  - unfold Demo.choose_topic.
    pose proof (strip_trimmed typed) as Ht.
    by destruct (WebSearch.strip typed).
  - intros Hs. unfold Demo.choose_topic, WebSearch.strip.
    assert (WebSearch.lstrip typed = "") as ->; [| done].
    revert Hs. unfold all_space, PyText.chars.
    induction typed as [|c typed IH]; [done |]. simpl.
    intros Hs. apply andb_true_iff in Hs as [-> Hs]. by apply IH.
  - intros Ht Hne. unfold Demo.choose_topic. rewrite (strip_id _ Ht).
    by destruct typed.
Qed.

Lemma demo_topic_and_file_names_witness :
  Demo.report_filename "perovskites"
  = "research_report_perovskites.md"
  /\ Demo.choose_topic "   " = Demo.default_topic
  /\ Demo.choose_topic "perovskites" = "perovskites".
Proof.
  destruct (demo_topic_and_file_names "   " "perovskites")
    as (_ & _ & Hname & _ & _ & Hdefault & _).
  destruct (demo_topic_and_file_names "perovskites" "perovskites")
    as (_ & _ & _ & _ & _ & _ & Hkeep).
  split; [| split].
  - apply Hname; [vm_compute; lia |].
    intros Hin. by repeat (apply elem_of_cons in Hin as [[=]|Hin]);
      inversion Hin.
  - apply Hdefault. reflexivity.
  - apply Hkeep; [reflexivity | discriminate].
Defined.

(** X22.  The agent participation of the analytics tab: for every
    agent, the number shown is the sum of the agent's contributions over
    the records of the history. *)
Theorem agent_stats_sum_contributions (history : list ResearchRecord)
    (agent : string) :
  default 0 (App.agent_stats history !! agent)
  = sum_list (map (fun research =>
                     default 0 (agent_contributions research !! agent))
                  history).
Proof.
  unfold App.agent_stats.
  assert (forall stats,
            default 0
              (fold_left
                 (fun stats research =>
                    App.add_contributions stats
                      (agent_contributions research)) history stats
               !! agent)
            = default 0 (stats !! agent)
              + sum_list (map (fun research =>
                                 default 0
                                   (agent_contributions research !! agent))
                              history)) as Hgen.
  { induction history as [|r history IH]; intros stats; simpl; [lia |].
    rewrite IH, add_contributions_lookup. lia. }
  rewrite Hgen, lookup_empty. simpl. lia.
Qed.

(** ** How strings are put together and taken apart *)

Section Shape.
Import WebSearch.

Lemma all_chars_app (p : ascii -> bool) (a b : string) :
  all_chars p (a +:+ b) = all_chars p a && all_chars p b.
Proof. unfold all_chars. by rewrite chars_app, forallb_app. Qed.

Lemma one_line_all_chars (s : string) :
  one_line s = all_chars (fun c => negb (is_linebreak c)) s.
Proof. done. Qed.

Lemma first_app_nonempty (a b : string) :
  a <> "" -> first (a +:+ b) = first a.
Proof. by destruct a. Qed.

Lemma last_char_app_empty (a : string) : last_char (a +:+ "") = last_char a.
Proof. by rewrite str_app_empty. Qed.

Lemma last_char_snoc (a : string) (c : ascii) :
  last_char (a +:+ String c "") = Some c.
Proof. by apply last_char_app. Qed.

(** No two blanks in a row, over a concatenation. *)
Lemma no_blank_pair_app (a b : string) :
  no_blank_pair (a +:+ b)
  = no_blank_pair a && no_blank_pair b
    && negb (blank_end (last_char a) && blank_end (first b)).
Proof.
  induction a as [|x a IH].
  - change ("" +:+ b) with b. simpl. by rewrite andb_true_r.
  - destruct a as [|y a].
    + change (String x "" +:+ b) with (String x b).
      destruct b as [|c' b];
        cbn [no_blank_pair last_char first blank_end andb]; unfold is_blank.
      * by rewrite andb_false_r.
      * by rewrite andb_comm.
    + change (String x (String y a) +:+ b)
        with (String x (String y a +:+ b)).
      change (String y a +:+ b) with (String y (a +:+ b)) in *.
      cbn [no_blank_pair last_char] in *. rewrite IH.
      by rewrite !andb_assoc.
Qed.

Lemma is_blank_space (c : ascii) : is_blank c = true -> is_space c = true.
Proof.
  unfold is_blank, is_space. intros Hb. apply Nat.eqb_eq in Hb.
  by rewrite Hb.
Qed.

Lemma is_blank_not_linebreak (c : ascii) :
  is_blank c = true -> is_linebreak c = false.
Proof.
  unfold is_blank, is_linebreak. intros Hb. apply Nat.eqb_eq in Hb.
  by rewrite Hb.
Qed.

(** What [lstrip] and [rstrip] take off is white space. *)
Lemma lstrip_split (s : string) :
  exists ws, s = ws +:+ lstrip s /\ all_space ws = true.
Proof.
  induction s as [|c s IH]; [by exists "" |]. simpl.
  destruct (is_space c) eqn:Hc; [| by exists ""].
  destruct IH as (ws & Hs & Hws). exists (String c ws). split.
  - change (String c ws +:+ lstrip s) with (String c (ws +:+ lstrip s)).
    by rewrite <- Hs.
  - unfold all_space in *. simpl. by rewrite Hc.
Qed.

Lemma rstrip_split (s : string) :
  exists ws, s = rstrip s +:+ ws /\ all_space ws = true.
Proof.
  induction s as [|c s IH]; [by exists "" |].
  destruct IH as (ws & Hs & Hws). cbn [rstrip].
  destruct (rstrip s) as [|d r] eqn:Hr.
  - change ("" +:+ ws) with ws in Hs. subst ws.
    destruct (is_space c) eqn:Hc.
    + exists (String c s). split; [done |].
      unfold all_space in *. simpl. by rewrite Hc.
    + by exists s.
  - exists ws. split; [| done].
    change (String c (String d r) +:+ ws)
      with (String c (String d r +:+ ws)).
    by rewrite <- Hs.
Qed.

(** So [strip] keeps the properties that pass to parts of a string. *)
Lemma strip_split (s : string) :
  exists before after, s = before +:+ strip s +:+ after.
Proof.
  destruct (lstrip_split s) as (ws1 & H1 & _).
  destruct (rstrip_split (lstrip s)) as (ws2 & H2 & _).
  exists ws1, ws2. unfold strip. by rewrite <- H2.
Qed.

Lemma strip_all_chars (p : ascii -> bool) (s : string) :
  all_chars p s = true -> all_chars p (strip s) = true.
Proof.
  destruct (strip_split s) as (before & after & Hs).
  rewrite Hs at 1. rewrite !all_chars_app.
  intros H. apply andb_true_iff in H as [_ H].
  by apply andb_true_iff in H as [H _].
Qed.

Lemma strip_no_blank_pair (s : string) :
  no_blank_pair s = true -> no_blank_pair (strip s) = true.
Proof.
  destruct (strip_split s) as (before & after & Hs).
  rewrite Hs at 1. rewrite !no_blank_pair_app.
  intros H. apply andb_true_iff in H as [H _].
  apply andb_true_iff in H as [_ H].
  apply andb_true_iff in H as [H _].
  by apply andb_true_iff in H as [H _].
Qed.

End Shape.

(** ** The clean-up of the page text, step by step *)

Section CleanUp.
Import WebSearch.

Lemma one_line_snoc (line : string) (c : ascii) :
  one_line line = true -> is_linebreak c = false ->
  one_line (snoc line c) = true.
Proof.
  intros Hl Hc. unfold snoc. rewrite one_line_all_chars, all_chars_app.
  rewrite <- one_line_all_chars, Hl. unfold all_chars. simpl.
  by rewrite Hc.
Qed.

(** The lines of [splitlines] hold no line boundary. *)
Lemma splitlines_from_one_line (n : nat) (s line : string) :
  String.length s <= n -> one_line line = true ->
  Forall (fun l => one_line l = true) (splitlines_from line s).
Proof.
  revert s line; induction n as [|n IH]; intros s line Hn Hl.
  - destruct s; [| simpl in Hn; lia]. simpl.
    destruct line; by repeat constructor.
  - destruct s as [|c s]; simpl.
    { destruct line; by repeat constructor. }
    simpl in Hn. destruct (is_linebreak c) eqn:Hc.
    + constructor; [done |].
      destruct s as [|c' s]; [by apply IH; [simpl; lia |] |].
      destruct ((nat_of_ascii c =? 13) && (nat_of_ascii c' =? 10));
        apply IH; simpl in *; try lia; done.
    + apply IH; [lia |]. by apply one_line_snoc.
Qed.

(** A text of one line is its own single line. *)
Lemma splitlines_from_of_one_line (s line : string) :
  one_line s = true ->
  splitlines_from line s =
  match line +:+ s with
  | EmptyString => []
  | String _ _ => [line +:+ s]
  end.
Proof.
  revert line; induction s as [|c s IH]; intros line Hs.
  - rewrite str_app_empty. by destruct line.
  - unfold one_line, PyText.chars in Hs. simpl in Hs.
    apply andb_true_iff in Hs as [Hc Hs]. apply negb_true_iff in Hc.
    simpl. rewrite Hc, (IH _ Hs). unfold snoc.
    by rewrite str_app_assoc.
Qed.

Lemma split_from_two (cur : string) (c c' : ascii) (s : string) :
  split_from cur (String c (String c' s)) =
  if (nat_of_ascii c =? 32) && (nat_of_ascii c' =? 32)
  then cur :: split_from "" s
  else split_from (snoc cur c) (String c' s).
Proof. done. Qed.

(** The pieces of [split] on two blanks, whatever is already read. *)
Lemma split_from_pieces (p : ascii -> bool) (n : nat) (s cur : string) :
  String.length s <= n ->
  all_chars p cur = true -> all_chars p s = true ->
  no_blank_pair (cur +:+ PyStr.str_take 1 s) = true ->
  Forall (fun x => all_chars p x = true /\ no_blank_pair x = true)
         (split_from cur s).
Proof.
  revert s cur; induction n as [|n IH]; intros s cur Hn Hcur Hs Hpair.
  - destruct s; [| simpl in Hn; lia]. simpl in *.
    rewrite str_app_empty in Hpair. by repeat constructor.
  - destruct s as [|c s].
    { simpl in *. rewrite str_app_empty in Hpair. by repeat constructor. }
    simpl in Hn.
    assert (all_chars p (String c "") = true /\ all_chars p s = true)
      as [Hc Hs'].
    { change (String c s) with (String c "" +:+ s) in Hs.
      rewrite all_chars_app in Hs. by apply andb_true_iff in Hs. }
    change (PyStr.str_take 1 (String c s)) with (String c "") in Hpair.
    assert (all_chars p (snoc cur c) = true) as Hsnoc
      by (unfold snoc; rewrite all_chars_app; by apply andb_true_iff).
    destruct s as [|c' s].
    + constructor; [| constructor]. split; [done |]. by unfold snoc.
    + rewrite split_from_two.
      destruct ((nat_of_ascii c =? 32) && (nat_of_ascii c' =? 32)) eqn:Hbb.
      * constructor.
        -- split; [done |]. rewrite no_blank_pair_app in Hpair.
           apply andb_true_iff in Hpair as [Hpair _].
           by apply andb_true_iff in Hpair as [Hpair _].
        -- apply IH; [simpl in *; lia | done | |].
           ++ change (String c' s) with (String c' "" +:+ s) in Hs'.
              rewrite all_chars_app in Hs'.
              by apply andb_true_iff in Hs' as [_ ?].
           ++ change ("" +:+ PyStr.str_take 1 s) with (PyStr.str_take 1 s).
              by destruct s.
      * apply IH; [simpl in *; lia | done | done |].
        change (PyStr.str_take 1 (String c' s)) with (String c' "").
        unfold snoc. rewrite no_blank_pair_app, Hpair.
        rewrite last_char_snoc. cbn [no_blank_pair first blank_end andb].
        unfold is_blank. by rewrite Hbb.
Qed.

(** A text without two blanks in a row is its own single piece. *)
Lemma split_from_of_no_blank_pair (s cur : string) :
  no_blank_pair s = true -> split_from cur s = [cur +:+ s].
Proof.
  revert cur; induction s as [|c s IH]; intros cur Hs.
  - by rewrite str_app_empty.
  - destruct s as [|c' s].
    + done.
    + rewrite split_from_two. cbn [no_blank_pair] in Hs. apply andb_true_iff in Hs as [Hbb Hs].
      apply negb_true_iff in Hbb. rewrite Hbb, (IH _ Hs). unfold snoc.
      by rewrite str_app_assoc.
Qed.

Lemma join_kept (parts : list string) :
  Forall kept parts -> clean (PyStr.join " " parts) = true.
Proof.
  induction parts as [|a parts IH]; [done |]. intros Hall.
  apply Forall_cons in Hall as [[Hne Ha] Hall].
  destruct parts as [|b parts]; [done |].
  specialize (IH Hall). apply Forall_cons in Hall as [[Hneb Hb] _].
  change (PyStr.join " " (a :: b :: parts))
    with (a +:+ " " +:+ PyStr.join " " (b :: parts)).
  set (rest := PyStr.join " " (b :: parts)) in *.
  assert (first rest = first b) as Hfirst.
  { subst rest. destruct parts; [done |].
    change (PyStr.join " " (b :: s :: parts))
      with (b +:+ " " +:+ PyStr.join " " (s :: parts)).
    by apply first_app_nonempty. }
  assert (rest <> "") as Hrest.
  { intros Heq. rewrite Heq in Hfirst. by destruct b. }
  unfold clean, trimmed in *.
  repeat match goal with
         | H : _ && _ = true |- _ => apply andb_true_iff in H as [? ?]
         end.
  assert (exists d, last_char rest = Some d) as [d Hd].
  { destruct rest as [|x rest']; [done |].
    clear. revert x; induction rest' as [|y r IHr]; intros x; [by eexists |].
    destruct (IHr y) as [d Hd]. exists d. exact Hd. }
  assert (last_char (a +:+ " " +:+ rest) = Some d) as Hlast.
  { apply last_char_app. by apply (last_char_app " "). }
  rewrite Hlast, Hd in *.
  rewrite (first_app_nonempty a) by done.
  rewrite one_line_all_chars, !all_chars_app, <- !one_line_all_chars.
  rewrite !no_blank_pair_app.
  repeat (apply andb_true_iff; split); try done.
  - cbn [first blank_end]. rewrite Hfirst.
    destruct (first b) as [cb|]; [| done]. cbn [blank_end].
    destruct (is_blank cb) eqn:Hcb; [| done].
    apply is_blank_space in Hcb. by rewrite Hcb in *.
  - destruct (last_char a) as [ca|] eqn:Hca; [| by destruct a].
    cbn [blank_end].
    destruct (is_blank ca) eqn:Hcab; [| done].
    apply is_blank_space in Hcab. by rewrite Hcab in *.
Qed.

End CleanUp.

Section CleanText.
Import WebSearch.

Lemma is_blank_eqb (c : ascii) : Ascii.eqb " " c = is_blank c.
Proof. destruct c as [[] [] [] [] [] [] [] []]; reflexivity. Qed.

Lemma no_blank_pair_two (c c' : ascii) (s : string) :
  no_blank_pair (String c (String c' s))
  = negb (is_blank c && is_blank c') && no_blank_pair (String c' s).
Proof. done. Qed.

(** [no_blank_pair] is Python's ["  " not in s]. *)
Lemma str_in_two_blanks (s : string) :
  PyStr.str_in "  " s = negb (no_blank_pair s).
Proof.
  induction s as [|c s IH]; [done |].
  cbn [PyStr.str_in PyStr.strip_prefix]. rewrite is_blank_eqb.
  destruct s as [|c' s].
  - by destruct (is_blank c).
  - cbn [PyStr.strip_prefix]. rewrite is_blank_eqb, IH, no_blank_pair_two.
    by destruct (is_blank c), (is_blank c'),
         (no_blank_pair (String c' s)).
Qed.

Lemma chunks_kept (text x : string) :
  In x (List.filter nonempty
          (concat (map (fun line => map strip (split_blanks line))
                       (map strip (splitlines text))))) ->
  kept x.
Proof.
  intros Hx. apply filter_In in Hx as [Hx Hne].
  apply in_concat in Hx as (l & Hl & Hx).
  apply in_map_iff in Hl as (line & <- & Hline).
  apply in_map_iff in Hx as (piece & <- & Hpiece).
  apply in_map_iff in Hline as (raw & <- & Hraw).
  assert (one_line raw = true) as Hone.
  { pose proof (splitlines_from_one_line (String.length text) text ""
                  (le_n _) eq_refl) as Hall.
    rewrite List.Forall_forall in Hall. by apply Hall. }
  pose proof (strip_all_chars _ raw Hone) as Hone'.
  pose proof (split_from_pieces (fun c => negb (is_linebreak c))
                (String.length (strip raw)) (strip raw) ""
                (le_n _) eq_refl Hone') as Hall.
  rewrite List.Forall_forall in Hall.
  destruct (Hall ltac:(by destruct (strip raw) as [|? []]) piece Hpiece)
    as [Hp1 Hp2].
  split; [by destruct (strip piece) |].
  unfold clean. rewrite strip_trimmed, (strip_no_blank_pair _ Hp2).
  rewrite one_line_all_chars. by rewrite (strip_all_chars _ _ Hp1).
Qed.

Lemma clean_text_clean (text : string) : clean (clean_text text) = true.
Proof.
  unfold clean_text. apply join_kept, List.Forall_forall.
  apply chunks_kept.
Qed.

Lemma clean_text_of_clean (text : string) :
  clean text = true -> clean_text text = text.
Proof.
  unfold clean. intros Hc. apply andb_true_iff in Hc as [Hc Hpair].
  apply andb_true_iff in Hc as [Hone Htrim].
  destruct text as [|c text]; [done |].
  unfold clean_text, splitlines.
  rewrite (splitlines_from_of_one_line _ "" Hone).
  change ("" +:+ String c text) with (String c text).
  cbn [map]. rewrite (strip_id _ Htrim). unfold split_blanks.
  rewrite (split_from_of_no_blank_pair _ "" Hpair).
  change ("" +:+ String c text) with (String c text).
  cbn [map concat app]. rewrite (strip_id _ Htrim). done.
Qed.

End CleanText.

(** X23.  The text the fallback extraction cleans is one line, has no
    white space at its ends and no two blanks in a row: Python's
    ["  " in text] is false for it, [text.strip()] is the text itself
    and no character of it is a line boundary. *)
Theorem clean_text_is_clean (text : string) :
  let cleaned := WebSearch.clean_text text in
  clean cleaned = true
  /\ PyStr.str_in "  " cleaned = false
  /\ WebSearch.strip cleaned = cleaned
  /\ Forall (fun c => WebSearch.is_linebreak c = false)
            (PyText.chars cleaned)
  /\ (cleaned <> "" -> WebSearch.splitlines cleaned = [cleaned]).
Proof.
  intros cleaned. pose proof (clean_text_clean text) as Hc.
  fold cleaned in Hc. split; [done |]. unfold clean in Hc.
  apply andb_true_iff in Hc as [Hc Hpair].
  apply andb_true_iff in Hc as [Hone Htrim].
  split; [by rewrite str_in_two_blanks, Hpair |].
  split; [by apply strip_id |]. split.
  - unfold one_line in Hone. rewrite forallb_forall in Hone.
    apply Forall_forall. intros c Hin. apply list_elem_of_In in Hin.
    by apply negb_true_iff, Hone.
  - intros Hne. unfold WebSearch.splitlines.
    rewrite (splitlines_from_of_one_line _ "" Hone).
    change ("" +:+ cleaned) with cleaned. by destruct cleaned.
Qed.

(** X24.  Cleaning changes nothing in a text that is clean already, so
    cleaning twice is cleaning once. *)
Theorem clean_text_idempotent (text : string) :
  (clean text = true -> WebSearch.clean_text text = text)
  /\ WebSearch.clean_text (WebSearch.clean_text text)
     = WebSearch.clean_text text.
Proof.
  split; [apply clean_text_of_clean |].
  apply clean_text_of_clean, clean_text_clean.
Qed.
